(** * LLMClaudeCode: the Claude Code CLI adapter (package [claudecode])

    A shallow embedding of the adapter's prompt builder, command builder,
    stream parser and tool-event handler, followed by the properties of the
    specification that were checked against it.

    Conventions.
    - A Go [string] is a sequence of bytes: Rocq's [string].
    - [map[string]any] is [gmap string any]; a possibly-nil map is an
      [option] of it.
    - Go's [int] is [Z]; no arithmetic is done on it here, only comparisons.
    - A JSON number is decoded to a [float64]: a [spec_float], the binary64
      value as sign, mantissa and exponent.
    - Callbacks (the streaming function, the tool-event hook) are observed
      through a trace of [effect]s, in the order the code performs them.
    - What the standard library and the operating system decide (JSON
      decoding, the clock, the child process, map iteration order) is a
      field of [Runtime].
    - Diagnostic logging ([log.Printf]) is left out. *)

From Stdlib Require Import SpecFloat ZArith Lia Ascii.
From stdpp Require Import gmap strings list fin_maps sorting.

Local Open Scope string_scope.
Local Open Scope Z_scope.
Local Open Scope list_scope.

(** ** Package [strings] *)

Module strings.

Definition bytes (s : string) : list ascii := String.list_ascii_of_string s.
Definition of_bytes (bs : list ascii) : string := String.string_of_list_ascii bs.

Definition byte_is (n : N) (c : ascii) : bool := N.eqb (Ascii.N_of_ascii c) n.

(** [asciiSpace]: tab, line feed, vertical tab, form feed, carriage return, space. *)
Definition asciiSpace (c : ascii) : bool :=
  let n := Ascii.N_of_ascii c in
  ((9 <=? n) && (n <=? 13) || (n =? 32))%N.

(** The white-space runes above U+007F, by their UTF-8 encoding:
    U+0085 and U+00A0 take two bytes. *)
Definition space2 (b0 b1 : ascii) : bool :=
  byte_is 194 b0 && (byte_is 133 b1 || byte_is 160 b1).

(** U+1680, U+2000..U+200A, U+2028, U+2029, U+202F, U+205F and U+3000
    take three bytes. *)
Definition space3 (b0 b1 b2 : ascii) : bool :=
  let n2 := Ascii.N_of_ascii b2 in
  (byte_is 225 b0 && byte_is 154 b1 && byte_is 128 b2)
  || (byte_is 226 b0 && byte_is 128 b1 &&
      ((128 <=? n2) && (n2 <=? 138) || (n2 =? 168) || (n2 =? 169) || (n2 =? 175))%N)
  || (byte_is 226 b0 && byte_is 129 b1 && byte_is 159 b2)
  || (byte_is 227 b0 && byte_is 128 b1 && byte_is 128 b2).

(** Drop the leading white-space runes. *)
Fixpoint trimLeft (bs : list ascii) : list ascii :=
  match bs with
  | [] => []
  | b0 :: t0 =>
      if asciiSpace b0 then trimLeft t0 else
      match t0 with
      | [] => bs
      | b1 :: t1 =>
          if space2 b0 b1 then trimLeft t1 else
          match t1 with
          | [] => bs
          | b2 :: t2 => if space3 b0 b1 b2 then trimLeft t2 else bs
          end
      end
  end.

(** Drop the trailing white-space runes; the argument is the byte sequence
    reversed, so the last byte of a rune comes first. *)
Fixpoint trimRightRev (rs : list ascii) : list ascii :=
  match rs with
  | [] => []
  | b0 :: t0 =>
      if asciiSpace b0 then trimRightRev t0 else
      match t0 with
      | [] => rs
      | b1 :: t1 =>
          if space2 b1 b0 then trimRightRev t1 else
          match t1 with
          | [] => rs
          | b2 :: t2 => if space3 b2 b1 b0 then trimRightRev t2 else rs
          end
      end
  end.

(** [strings.TrimSpace]: all leading and trailing white space removed, as
    defined by Unicode. *)
Definition TrimSpace (s : string) : string :=
  of_bytes (rev (trimRightRev (rev (trimLeft (bytes s))))).

(** [strings.Join]. *)
Definition Join (elems : list string) (sep : string) : string :=
  String.concat sep elems.

(** [len(strings.Split(s, "\n"))]: one more than the number of line feeds. *)
Definition SplitLines_len (s : string) : nat :=
  S (length (filter (fun c => byte_is 10 c = true) (bytes s))).

(** [len(s)] and the slice [s[:n]] for [n <= len(s)]. *)
Definition len (s : string) : Z := Z.of_nat (String.length s).
Definition slice_to (n : nat) (s : string) : string := String.substring 0 n s.

Definition LF : string := String "010"%char "".

End strings.

(** Go's [==] on strings, as a boolean. *)
Definition streq (a b : string) : bool := bool_decide (a = b).

(** ** Decoded JSON values: Go's [any] as produced by [encoding/json] *)

#[local] Set Warnings "-register-all".
Inductive any : Type :=
  | ANil
  | ABool (b : bool)
  | ANum (f : spec_float)
  | AStr (s : string)
  | AList (l : list any)
  | AMap (m : gmap string any).

(** [m[key]] on a map that may be nil. *)
Definition index (m : option (gmap string any)) (key : string) : option any :=
  match m with
  | Some m => m !! key
  | None => None
  end.

(** The type assertion [v.(string)] applied to the result of an index
    expression: the string and [ok]. *)
Definition assertString (v : option any) : string * bool :=
  match v with
  | Some (AStr s) => (s, true)
  | _ => ("", false)
  end.

(** ** Package [llms] of langchaingo: the types the adapter consumes *)

Module llms.

Definition ChatMessageType := string.
Definition ChatMessageTypeAI : ChatMessageType := "ai".
Definition ChatMessageTypeHuman : ChatMessageType := "human".
Definition ChatMessageTypeSystem : ChatMessageType := "system".
Definition ChatMessageTypeGeneric : ChatMessageType := "generic".
Definition ChatMessageTypeFunction : ChatMessageType := "function".
Definition ChatMessageTypeTool : ChatMessageType := "tool".

Record FunctionCall := { Name : string; Arguments : string }.

Inductive ContentPart : Type :=
  | TextContent (Text : string)
  | ImageURLContent (URL Detail : string)
  | BinaryContent (MIMEType Data : string)
  | ToolCall (ID Type_ : string) (FunctionCall_ : option FunctionCall)
  | ToolCallResponse (ToolCallID Name_ Content : string).

Record MessageContent := { Role : ChatMessageType; Parts : list ContentPart }.

(** The fields of [ContentChoice] the adapter sets. *)
Record ContentChoice := {
  Content_ : string;
  GenerationInfo : option (gmap string any)
}.

Record ContentResponse := { Choices : list ContentChoice }.

End llms.

(** ** Errors

    One constructor per error the package builds; [ErrExternal] stands for
    an error value coming from a library, the operating system or a
    callback. A wrapped error ([%w]) is the [cause] argument. *)

Inductive error : Type :=
  | ErrExternal (msg : string)
  | ErrNilReceiver
  | ErrCLINotFound (cause : error)
  | ErrEmptyPrompt
  | ErrStdoutPipe (cause : error)
  | ErrStderrPipe (cause : error)
  | ErrStartCLI (cause : error)
  | ErrParseJSON (cause : error)
  | ErrCLIError (payload : gmap string any)
  | ErrReadStdout (cause : error)
  | ErrMissingMessage
  | ErrMissingContent
  | ErrUnsupportedAssistantContent (content : any)
  | ErrUnsupportedContentPart (part : llms.ContentPart)
  | ErrCLIFailed (cause : error) (stderr : option string).

(** ** Prompt builder *)

(** The type switch of [messageToText]: the text one content part renders
    as, or the unsupported-part error. *)
Definition partToText (part : llms.ContentPart) : error + string :=
  match part with
  | llms.TextContent t => inr t
  | llms.ToolCall _ _ (Some fc) =>
      inr ("[ToolCall] " +:+ llms.Name fc +:+ " " +:+ llms.Arguments fc)
  | llms.ToolCall _ _ None => inr "[ToolCall]"
  | llms.ToolCallResponse _ name content =>
      let name := strings.TrimSpace name in
      if streq name "" then inr ("[ToolResult] " +:+ content)
      else inr ("[ToolResult:" +:+ name +:+ "] " +:+ content)
  | _ => inl (ErrUnsupportedContentPart part)
  end.

(** The loop of [messageToText]; [i] is the index of the first part of
    [parts] and [builder] what has been written so far. *)
Fixpoint messageToText_loop (i : nat) (parts : list llms.ContentPart)
    (builder : string) : error + string :=
  match parts with
  | [] => inr builder
  | part :: rest =>
      let builder := if (0 <? i)%nat then builder +:+ strings.LF else builder in
      match partToText part with
      | inl err => inl err
      | inr t => messageToText_loop (S i) rest (builder +:+ t)
      end
  end.

Definition messageToText (msg : llms.MessageContent) : error + string :=
  match llms.Parts msg with
  | [] => inr ""
  | parts => messageToText_loop 0 parts ""
  end.

(** [splitSystemMessages]: the loop carries [systemParts] and [others]. *)
Fixpoint splitSystemMessages_loop (messages : list llms.MessageContent)
    (systemParts : list string) (others : list llms.MessageContent)
    : error + (list string * list llms.MessageContent) :=
  match messages with
  | [] => inr (systemParts, others)
  | msg :: rest =>
      if streq (llms.Role msg) llms.ChatMessageTypeSystem then
        match messageToText msg with
        | inl err => inl err
        | inr text =>
            if streq (strings.TrimSpace text) ""
            then splitSystemMessages_loop rest systemParts others
            else splitSystemMessages_loop rest (systemParts ++ [text]) others
        end
      else splitSystemMessages_loop rest systemParts (others ++ [msg])
  end.

Definition splitSystemMessages (messages : list llms.MessageContent)
    : error + (string * list llms.MessageContent) :=
  match splitSystemMessages_loop messages [] [] with
  | inl err => inl err
  | inr (systemParts, others) =>
      inr (strings.Join systemParts (strings.LF +:+ strings.LF), others)
  end.

Definition mergeSystemPrompt (base extra : string) : string :=
  let base := strings.TrimSpace base in
  let extra := strings.TrimSpace extra in
  if streq base "" then extra
  else if streq extra "" then base
  else base +:+ strings.LF +:+ strings.LF +:+ extra.

Definition rolePrefix (role : llms.ChatMessageType) : string :=
  if streq role llms.ChatMessageTypeHuman then "User"
  else if streq role llms.ChatMessageTypeAI then "Assistant"
  else if streq role llms.ChatMessageTypeFunction then "Function"
  else if streq role llms.ChatMessageTypeTool then "Tool"
  else if streq role llms.ChatMessageTypeGeneric then "User"
  else if streq role llms.ChatMessageTypeSystem then "System"
  else "".

Fixpoint buildPrompt_loop (messages : list llms.MessageContent)
    (parts : list string) : error + list string :=
  match messages with
  | [] => inr parts
  | msg :: rest =>
      match messageToText msg with
      | inl err => inl err
      | inr text =>
          let text := strings.TrimSpace text in
          if streq text "" then buildPrompt_loop rest parts
          else
            let prefix := rolePrefix (llms.Role msg) in
            if negb (streq prefix "")
            then buildPrompt_loop rest (parts ++ [prefix +:+ ": " +:+ text])
            else buildPrompt_loop rest (parts ++ [text])
      end
  end.

Definition buildPrompt (messages : list llms.MessageContent) : error + string :=
  match messages with
  | [] => inr ""
  | _ =>
      match buildPrompt_loop messages [] with
      | inl err => inl err
      | inr parts => inr (strings.Join parts (strings.LF +:+ strings.LF))
      end
  end.

(** ** Configuration: output modes, tool events, options *)

Definition OutputMode := Z.
Definition OutputModeText : OutputMode := 0.
Definition OutputModeVerbose : OutputMode := 1.
Definition OutputModeFull : OutputMode := 2.

Definition ToolEventType := Z.
Definition ToolEventUse : ToolEventType := 0.
Definition ToolEventResult : ToolEventType := 1.

Record ToolEvent := {
  Type_ : ToolEventType;
  ToolName : string;
  ToolID : string;
  Input : option (gmap string any);
  Output : string;
  Timestamp : Z
}.

(** A hook is a callback; the model keeps a handle to tell which one ran. *)
Definition ToolEventHook := nat.

Record Options := {
  CLIPath : string;
  Model : string;
  SystemPrompt : string;
  Cwd : string;
  PermissionMode : string;
  Tools : list string;
  AllowedTools : list string;
  DisallowedTools : list string;
  Env : option (gmap string string);
  ExtraArgs : option (gmap string string);
  MaxBufferSize : Z;
  OutputMode_ : OutputMode;
  ToolEventHook_ : option ToolEventHook;
  SessionID : string;
  Resume : bool;
  ForkSession : bool;
  NoSessionPersistence : bool
}.

(** Field assignments [o.F = v]. *)

Definition set_CLIPath v (o : Options) : Options :=
  let '(Build_Options x0 x1 x2 x3 x4 x5 x6 x7 x8 x9 x10 x11 x12 x13 x14 x15 x16) := o in
  Build_Options v x1 x2 x3 x4 x5 x6 x7 x8 x9 x10 x11 x12 x13 x14 x15 x16.

Definition set_Model v (o : Options) : Options :=
  let '(Build_Options x0 x1 x2 x3 x4 x5 x6 x7 x8 x9 x10 x11 x12 x13 x14 x15 x16) := o in
  Build_Options x0 v x2 x3 x4 x5 x6 x7 x8 x9 x10 x11 x12 x13 x14 x15 x16.

Definition set_SystemPrompt v (o : Options) : Options :=
  let '(Build_Options x0 x1 x2 x3 x4 x5 x6 x7 x8 x9 x10 x11 x12 x13 x14 x15 x16) := o in
  Build_Options x0 x1 v x3 x4 x5 x6 x7 x8 x9 x10 x11 x12 x13 x14 x15 x16.

Definition set_Cwd v (o : Options) : Options :=
  let '(Build_Options x0 x1 x2 x3 x4 x5 x6 x7 x8 x9 x10 x11 x12 x13 x14 x15 x16) := o in
  Build_Options x0 x1 x2 v x4 x5 x6 x7 x8 x9 x10 x11 x12 x13 x14 x15 x16.

Definition set_PermissionMode v (o : Options) : Options :=
  let '(Build_Options x0 x1 x2 x3 x4 x5 x6 x7 x8 x9 x10 x11 x12 x13 x14 x15 x16) := o in
  Build_Options x0 x1 x2 x3 v x5 x6 x7 x8 x9 x10 x11 x12 x13 x14 x15 x16.

Definition set_Tools v (o : Options) : Options :=
  let '(Build_Options x0 x1 x2 x3 x4 x5 x6 x7 x8 x9 x10 x11 x12 x13 x14 x15 x16) := o in
  Build_Options x0 x1 x2 x3 x4 v x6 x7 x8 x9 x10 x11 x12 x13 x14 x15 x16.

Definition set_AllowedTools v (o : Options) : Options :=
  let '(Build_Options x0 x1 x2 x3 x4 x5 x6 x7 x8 x9 x10 x11 x12 x13 x14 x15 x16) := o in
  Build_Options x0 x1 x2 x3 x4 x5 v x7 x8 x9 x10 x11 x12 x13 x14 x15 x16.

Definition set_DisallowedTools v (o : Options) : Options :=
  let '(Build_Options x0 x1 x2 x3 x4 x5 x6 x7 x8 x9 x10 x11 x12 x13 x14 x15 x16) := o in
  Build_Options x0 x1 x2 x3 x4 x5 x6 v x8 x9 x10 x11 x12 x13 x14 x15 x16.

Definition set_Env v (o : Options) : Options :=
  let '(Build_Options x0 x1 x2 x3 x4 x5 x6 x7 x8 x9 x10 x11 x12 x13 x14 x15 x16) := o in
  Build_Options x0 x1 x2 x3 x4 x5 x6 x7 v x9 x10 x11 x12 x13 x14 x15 x16.

Definition set_ExtraArgs v (o : Options) : Options :=
  let '(Build_Options x0 x1 x2 x3 x4 x5 x6 x7 x8 x9 x10 x11 x12 x13 x14 x15 x16) := o in
  Build_Options x0 x1 x2 x3 x4 x5 x6 x7 x8 v x10 x11 x12 x13 x14 x15 x16.

Definition set_MaxBufferSize v (o : Options) : Options :=
  let '(Build_Options x0 x1 x2 x3 x4 x5 x6 x7 x8 x9 x10 x11 x12 x13 x14 x15 x16) := o in
  Build_Options x0 x1 x2 x3 x4 x5 x6 x7 x8 x9 v x11 x12 x13 x14 x15 x16.

Definition set_OutputMode v (o : Options) : Options :=
  let '(Build_Options x0 x1 x2 x3 x4 x5 x6 x7 x8 x9 x10 x11 x12 x13 x14 x15 x16) := o in
  Build_Options x0 x1 x2 x3 x4 x5 x6 x7 x8 x9 x10 v x12 x13 x14 x15 x16.

Definition set_ToolEventHook v (o : Options) : Options :=
  let '(Build_Options x0 x1 x2 x3 x4 x5 x6 x7 x8 x9 x10 x11 x12 x13 x14 x15 x16) := o in
  Build_Options x0 x1 x2 x3 x4 x5 x6 x7 x8 x9 x10 x11 v x13 x14 x15 x16.

Definition set_SessionID v (o : Options) : Options :=
  let '(Build_Options x0 x1 x2 x3 x4 x5 x6 x7 x8 x9 x10 x11 x12 x13 x14 x15 x16) := o in
  Build_Options x0 x1 x2 x3 x4 x5 x6 x7 x8 x9 x10 x11 x12 v x14 x15 x16.

Definition set_Resume v (o : Options) : Options :=
  let '(Build_Options x0 x1 x2 x3 x4 x5 x6 x7 x8 x9 x10 x11 x12 x13 x14 x15 x16) := o in
  Build_Options x0 x1 x2 x3 x4 x5 x6 x7 x8 x9 x10 x11 x12 x13 v x15 x16.

Definition set_ForkSession v (o : Options) : Options :=
  let '(Build_Options x0 x1 x2 x3 x4 x5 x6 x7 x8 x9 x10 x11 x12 x13 x14 x15 x16) := o in
  Build_Options x0 x1 x2 x3 x4 x5 x6 x7 x8 x9 x10 x11 x12 x13 x14 v x16.

Definition set_NoSessionPersistence v (o : Options) : Options :=
  let '(Build_Options x0 x1 x2 x3 x4 x5 x6 x7 x8 x9 x10 x11 x12 x13 x14 x15 x16) := o in
  Build_Options x0 x1 x2 x3 x4 x5 x6 x7 x8 x9 x10 x11 x12 x13 x14 x15 v.

(** An [Option] mutates the [Options] it is given. *)
Definition Option_ := Options -> Options.

Definition defaultPermissionMode : string := "bypassPermissions".
Definition defaultMaxBufferSize : Z := 1024 * 1024.

Definition defaultOptions : Options := {|
  CLIPath := ""; Model := ""; SystemPrompt := ""; Cwd := "";
  PermissionMode := defaultPermissionMode;
  Tools := []; AllowedTools := []; DisallowedTools := [];
  Env := Some ∅; ExtraArgs := Some ∅;
  MaxBufferSize := defaultMaxBufferSize;
  OutputMode_ := OutputModeText; ToolEventHook_ := None;
  SessionID := ""; Resume := false; ForkSession := false;
  NoSessionPersistence := false
|}.

Definition WithCLIPath (path : string) : Option_ := set_CLIPath path.
Definition WithModel (model : string) : Option_ := set_Model model.
Definition WithSystemPrompt (prompt : string) : Option_ := set_SystemPrompt prompt.
Definition WithCwd (cwd : string) : Option_ := set_Cwd cwd.
Definition WithPermissionMode (mode : string) : Option_ := set_PermissionMode mode.
Definition WithTools (tools : list string) : Option_ := set_Tools tools.
Definition WithAllowedTools (tools : list string) : Option_ := set_AllowedTools tools.
Definition WithDisallowedTools (tools : list string) : Option_ :=
  set_DisallowedTools tools.

(** The map is copied; a nil argument gives an empty map. *)
Definition WithEnv (env : option (gmap string string)) : Option_ :=
  set_Env (Some (default ∅ env)).
Definition WithExtraArgs (args : option (gmap string string)) : Option_ :=
  set_ExtraArgs (Some (default ∅ args)).

Definition WithMaxBufferSize (size : Z) : Option_ :=
  fun o => if 0 <? size then set_MaxBufferSize size o else o.

Definition WithOutputMode (mode : OutputMode) : Option_ := set_OutputMode mode.
Definition WithToolEventHook (hook : option ToolEventHook) : Option_ :=
  set_ToolEventHook hook.
Definition WithSessionID (sessionID : string) : Option_ := set_SessionID sessionID.
Definition WithResume (resume : bool) : Option_ := set_Resume resume.
Definition WithForkSession (fork : bool) : Option_ := set_ForkSession fork.
Definition WithNoSessionPersistence (disabled : bool) : Option_ :=
  set_NoSessionPersistence disabled.

Record LLM := { cliPath : string; opts : Options }.

(** ** Effects and the world outside the package *)

(** What the adapter does to its callers' callbacks, in order. *)
Inductive effect : Type :=
  | CallStreamingFunc (chunk : string)
  | CallToolEventHook (hook : ToolEventHook) (event : ToolEvent).

(** The streaming callback: given the calls made so far and a chunk, the
    error it returns ([None] for nil). *)
Definition StreamingFunc := list effect -> string -> option error.

(** The fields of [llms.CallOptions] the adapter reads. *)
Record CallOptions := { StreamingFunc_ : option StreamingFunc }.
Definition CallOption := CallOptions -> CallOptions.

(** A [bufio.Scanner] run to its end: the lines [Scan] yields, then [Err()]. *)
Record Scanned := { lines : list string; Err : option error }.

(** An [io.Reader], seen through the scanner that reads it with a given cap
    on the line size. *)
Definition Reader := Z -> Scanned.

Record Cmd := {
  Path : string;
  Args : list string;
  Cmd_Env : list string;
  Dir : string
}.

(** A child process: the outcome of each call the adapter makes on it. *)
Record Process := {
  StdoutPipe_err : option error;
  StderrPipe_err : option error;
  Start_err : option error;
  Stdout : Reader;
  Stderr : string;
  Wait_err : option error
}.

Record Runtime := {
  json_Unmarshal : string -> error + gmap string any;
  json_MarshalIndent : option (gmap string any) -> string;
  (** [time.Now()], by the number of readings taken before. *)
  time_Now : nat -> Z;
  (** The keys of a map in the order a [range] loop yields them. *)
  map_range : gmap string string -> list string;
  os_Environ : list string;
  os_UserHomeDir : error + string;
  exec_LookPath : string -> error + string;
  filepath_Join : list string -> string;
  exec_Command : Cmd -> Process
}.

(** A [range] loop visits every key of the map once, in some order. *)
Definition range_visits_keys (rt : Runtime) : Prop :=
  forall m : gmap string string, map_range rt m ≡ₚ (map_to_list m).*1.

(** ** Tool events ([handleToolEvent], [formatToolUseSummary]) *)

Definition wrench : string := "🔧".
Definition outbox : string := "  └─ 📤 ".

(** [input[key].(string)]. *)
Definition inputString (input : option (gmap string any)) (key : string)
    : string * bool :=
  assertString (index input key).

(** [v] cut to [n] bytes, the last three of them dots, when longer than [n]. *)
Definition truncate (n : nat) (v : string) : string :=
  if Z.of_nat n <? strings.len v
  then strings.slice_to (n - 3) v +:+ "..."
  else v.

(** First of two string fields that is present. *)
Definition firstOf (input : option (gmap string any)) (k1 k2 : string) : string :=
  let '(v1, ok1) := inputString input k1 in
  if ok1 then v1
  else let '(v2, ok2) := inputString input k2 in
       if ok2 then v2 else "".

Definition oneOf (s : string) (names : list string) : bool :=
  existsb (streq s) names.

(** The fall-back scan over common keys: the first non-empty string wins. *)
Fixpoint scanCommonKeys (input : option (gmap string any)) (keys : list string)
    : string :=
  match keys with
  | [] => ""
  | key :: rest =>
      let '(v, ok) := inputString input key in
      if ok && negb (streq v "") then truncate 60 v
      else scanCommonKeys input rest
  end.

Definition itoa (n : nat) : string := pretty.pretty n.

Definition formatToolUseSummary (toolName : string)
    (input : option (gmap string any)) : string :=
  let detail :=
    if oneOf toolName ["Read"; "read_file"; "view_file"] then
      firstOf input "file_path" "path"
    else if oneOf toolName ["Write"; "write_file"; "create_file"] then
      firstOf input "file_path" "path"
    else if oneOf toolName ["Bash"; "run_command"; "execute_command"] then
      let '(cmd, ok) := inputString input "command" in
      if ok then truncate 80 cmd else ""
    else if oneOf toolName ["TodoWrite"; "task"; "plan"] then
      let '(todos, ok) := inputString input "todos" in
      if ok then itoa (strings.SplitLines_len todos) +:+ " items" else ""
    else if oneOf toolName ["Skill"; "use_skill"] then
      firstOf input "skill_name" "name"
    else if oneOf toolName ["Search"; "grep"; "find"] then
      firstOf input "query" "pattern"
    else
      scanCommonKeys input ["path"; "file"; "command"; "query"; "name"; "url"] in
  if negb (streq detail "")
  then strings.LF +:+ wrench +:+ " " +:+ toolName +:+ ": " +:+ detail +:+ strings.LF
  else strings.LF +:+ wrench +:+ " " +:+ toolName +:+ strings.LF.

(** ** Stream parser state *)

Record StreamState := {
  builder : string;
  generationInfo : option (gmap string any);
  trace : list effect;
  ticks : nat
}.

Definition initState : StreamState :=
  {| builder := ""; generationInfo := None; trace := []; ticks := 0 |}.

(** [builder.WriteString(s)]. *)
Definition WriteString (s : string) (st : StreamState) : StreamState :=
  {| builder := builder st +:+ s; generationInfo := generationInfo st;
     trace := trace st; ticks := ticks st |}.

Definition record (e : effect) (st : StreamState) : StreamState :=
  {| builder := builder st; generationInfo := generationInfo st;
     trace := trace st ++ [e]; ticks := ticks st |}.

Definition tick (st : StreamState) : StreamState :=
  {| builder := builder st; generationInfo := generationInfo st;
     trace := trace st; ticks := S (ticks st) |}.

Definition set_generationInfo (g : gmap string any) (st : StreamState)
    : StreamState :=
  {| builder := builder st; generationInfo := Some g;
     trace := trace st; ticks := ticks st |}.

(** Calling the streaming callback: the call is recorded, its result returned. *)
Definition callStreamingFunc (f : StreamingFunc) (chunk : string)
    (st : StreamState) : StreamState * option error :=
  (record (CallStreamingFunc chunk) st, f (trace st) chunk).

Record toolUseInfo := {
  ID : string;
  Name : string;
  tu_Input : option (gmap string any)
}.

Definition getStringField (m : gmap string any) (key : string) : string :=
  let '(v, ok) := assertString (m !! key) in
  if ok then v else "".

(** The loop of [extractAssistantContent] over the content blocks. *)
Fixpoint extractBlocks (blocks : list any) (texts : list string)
    (toolUses : list toolUseInfo) : list string * list toolUseInfo :=
  match blocks with
  | [] => (texts, toolUses)
  | AMap blockMap :: rest =>
      let '(blockType, _) := assertString (blockMap !! "type") in
      if streq blockType "text" then
        let '(text, _) := assertString (blockMap !! "text") in
        if negb (streq text "")
        then extractBlocks rest (texts ++ [text]) toolUses
        else extractBlocks rest texts toolUses
      else if streq blockType "tool_use" then
        let tu := {| ID := getStringField blockMap "id";
                     Name := getStringField blockMap "name";
                     tu_Input := match blockMap !! "input" with
                                 | Some (AMap input) => Some input
                                 | _ => None
                                 end |} in
        extractBlocks rest texts (toolUses ++ [tu])
      else extractBlocks rest texts toolUses
  | _ :: rest => extractBlocks rest texts toolUses
  end.

Definition extractAssistantContent (payload : gmap string any)
    : error + (list string * list toolUseInfo) :=
  match payload !! "message" with
  | Some (AMap message) =>
      match message !! "content" with
      | None => inl ErrMissingContent
      | Some (AList blocks) => inr (extractBlocks blocks [] [])
      | Some (AStr blocks) =>
          if streq blocks "" then inr ([], []) else inr ([blocks], [])
      | Some content => inl (ErrUnsupportedAssistantContent content)
      end
  | _ => inl ErrMissingMessage
  end.

Definition mergeField (payload : gmap string any) (from to : string)
    (existing : gmap string any) : gmap string any :=
  match payload !! from with
  | Some v => <[to := v]> existing
  | None => existing
  end.

Definition mergeResultInfo (existing : option (gmap string any))
    (payload : gmap string any) : gmap string any :=
  let existing := default ∅ existing in
  let existing := mergeField payload "total_cost_usd" "TotalCostUSD" existing in
  let existing := mergeField payload "usage" "Usage" existing in
  let existing := mergeField payload "result" "Result" existing in
  let existing := mergeField payload "structured_output" "StructuredOutput" existing in
  existing.

Section WithRuntime.

Context (rt : Runtime).

(** The text [handleToolEvent] folds into the output for an event. *)
Definition toolSummary (mode : OutputMode) (event : ToolEvent) : string :=
  if Type_ event =? ToolEventUse then
    if mode =? OutputModeFull then
      strings.LF +:+ wrench +:+ " [" +:+ ToolName event +:+ "] " +:+ ToolID event
        +:+ strings.LF +:+ json_MarshalIndent rt (Input event) +:+ strings.LF
    else formatToolUseSummary (ToolName event) (Input event)
  else if Type_ event =? ToolEventResult then
    if mode =? OutputModeFull then
      let output := Output event in
      let output :=
        if 500 <? strings.len output
        then strings.slice_to 500 output +:+ "... (truncated)"
        else output in
      outbox +:+ output +:+ strings.LF
    else ""
  else "".

Definition handleToolEvent (l : LLM) (event : ToolEvent)
    (streamingFunc : option StreamingFunc) (st : StreamState) : StreamState :=
  let st := match ToolEventHook_ (opts l) with
            | Some hook => record (CallToolEventHook hook event) st
            | None => st
            end in
  if OutputMode_ (opts l) =? OutputModeText then st
  else
    let summary := toolSummary (OutputMode_ (opts l)) event in
    if negb (streq summary "") then
      let st := WriteString summary st in
      match streamingFunc with
      | Some f => fst (callStreamingFunc f summary st)
      | None => st
      end
    else st.

(** The loop of [readStream] over the text blocks of one assistant line. *)
Fixpoint streamTexts (streamingFunc : option StreamingFunc)
    (texts : list string) (st : StreamState) : StreamState * option error :=
  match texts with
  | [] => (st, None)
  | text :: rest =>
      match streamingFunc with
      | Some f =>
          match callStreamingFunc f text st with
          | (st, Some err) => (st, Some err)
          | (st, None) => streamTexts streamingFunc rest (WriteString text st)
          end
      | None => streamTexts streamingFunc rest (WriteString text st)
      end
  end.

(** The tool-requested event built for one [tool_use] block. *)
Definition toolUseEvent (tu : toolUseInfo) (st : StreamState) : ToolEvent :=
  {| Type_ := ToolEventUse; ToolName := Name tu; ToolID := ID tu;
     Input := tu_Input tu; Output := ""; Timestamp := time_Now rt (ticks st) |}.

(** The loop of [readStream] over the tool-use blocks of one assistant line. *)
Fixpoint dispatchToolUses (l : LLM) (streamingFunc : option StreamingFunc)
    (toolUses : list toolUseInfo) (st : StreamState) : StreamState :=
  match toolUses with
  | [] => st
  | tu :: rest =>
      dispatchToolUses l streamingFunc rest
        (handleToolEvent l (toolUseEvent tu st) streamingFunc (tick st))
  end.

(** The body of the [switch msgType] of [readStream]: the state after the
    line, and the error the function returns with, if any. *)
Definition classify (l : LLM) (streamingFunc : option StreamingFunc)
    (payload : gmap string any) (st : StreamState)
    : StreamState * option error :=
  let '(msgType, _) := assertString (payload !! "type") in
  if streq msgType "assistant" then
    match extractAssistantContent payload with
    | inl err => (st, Some err)
    | inr (texts, toolUses) =>
        match streamTexts streamingFunc texts st with
        | (st, Some err) => (st, Some err)
        | (st, None) => (dispatchToolUses l streamingFunc toolUses st, None)
        end
    end
  else if streq msgType "tool_result" then
    let event :=
      {| Type_ := ToolEventResult; ToolName := "";
         ToolID := getStringField payload "tool_use_id"; Input := None;
         Output := getStringField payload "content";
         Timestamp := time_Now rt (ticks st) |} in
    (handleToolEvent l event streamingFunc (tick st), None)
  else if streq msgType "result" then
    (set_generationInfo (mergeResultInfo (generationInfo st) payload) st, None)
  else if streq msgType "" then
    (st, Some (ErrCLIError payload))
  else (st, None).

(** The [for scanner.Scan()] loop of [readStream]. *)
Fixpoint scanLoop (l : LLM) (streamingFunc : option StreamingFunc)
    (scanned : list string) (st : StreamState) : StreamState * option error :=
  match scanned with
  | [] => (st, None)
  | text :: rest =>
      let line := strings.TrimSpace text in
      if streq line "" then scanLoop l streamingFunc rest st
      else
        match json_Unmarshal rt line with
        | inl err => (st, Some (ErrParseJSON err))
        | inr payload =>
            match classify l streamingFunc payload st with
            | (st, Some err) => (st, Some err)
            | (st, None) => scanLoop l streamingFunc rest st
            end
        end
  end.

(** [readStream] with the state it ends in. *)
Definition readStream_run (l : LLM) (stdout : Reader)
    (streamingFunc : option StreamingFunc) : StreamState * option error :=
  let scanner := stdout (MaxBufferSize (opts l)) in
  match scanLoop l streamingFunc (lines scanner) initState with
  | (st, Some err) => (st, Some err)
  | (st, None) =>
      match Err scanner with
      | Some err => (st, Some (ErrReadStdout err))
      | None => (st, None)
      end
  end.

(** [readStream]: the aggregated text, the generation info and the error. *)
Definition readStream (l : LLM) (stdout : Reader)
    (streamingFunc : option StreamingFunc)
    : string * option (gmap string any) * option error :=
  let '(st, err) := readStream_run l stdout streamingFunc in
  (builder st, generationInfo st, err).

End WithRuntime.

(** ** Package [sort] *)

(** The byte-wise order of Go's [<] on strings, as [<=]. *)
Definition string_le (a b : string) : Prop := String.leb a b = true.

#[global] Instance string_le_dec (a b : string) : Decision (string_le a b).
Proof. unfold string_le. apply _. Defined.

(** [sort.Strings]: the keys in increasing order. *)
Definition sort_Strings (keys : list string) : list string :=
  merge_sort string_le keys.

(** ** Command builder, client construction and the generation call *)

Section Client.

Context (rt : Runtime).

(** One step of the loop over the sorted extra-argument keys. *)
Definition appendExtraArg (extraArgs : gmap string string)
    (args : list string) (key : string) : list string :=
  let val := default "" (extraArgs !! key) in
  if streq val "" then args ++ ["--" +:+ key]
  else args ++ ["--" +:+ key; val].

(** The extra flags appended to [args]. *)
Definition appendExtraArgs (extraArgs : option (gmap string string))
    (args : list string) : list string :=
  let m := default ∅ extraArgs in
  if bool_decide (0 < size m)%nat then
    let keys := sort_Strings (map_range rt m) in
    fold_left (appendExtraArg m) keys args
  else args.

Definition appendIf (cond : bool) (flags args : list string) : list string :=
  if cond then args ++ flags else args.

Definition nonEmpty (l : list string) : bool := bool_decide (0 < length l)%nat.

(** The slice [args] of [buildCommand]. *)
Definition buildCommand_args (l : LLM) (prompt systemPrompt : string)
    : list string :=
  let o := opts l in
  let args := ["--output-format"; "stream-json"; "--verbose"] in
  let args := appendIf (negb (streq systemPrompt ""))
                ["--system-prompt"; systemPrompt] args in
  let args := appendIf (nonEmpty (Tools o))
                ["--tools"; strings.Join (Tools o) ","] args in
  let args := appendIf (nonEmpty (AllowedTools o))
                ["--allowedTools"; strings.Join (AllowedTools o) ","] args in
  let args := appendIf (nonEmpty (DisallowedTools o))
                ["--disallowedTools"; strings.Join (DisallowedTools o) ","] args in
  let args := appendIf (negb (streq (Model o) "")) ["--model"; Model o] args in
  let args := appendIf (negb (streq (PermissionMode o) ""))
                ["--permission-mode"; PermissionMode o] args in
  let args := appendExtraArgs (ExtraArgs o) args in
  args ++ ["--print"; "--"; prompt].

(** [exec.CommandContext(ctx, l.cliPath, args...)]: [Args] starts with the
    program. *)
Definition buildCommand (l : LLM) (prompt systemPrompt : string) : Cmd :=
  {| Path := cliPath l;
     Args := cliPath l :: buildCommand_args l prompt systemPrompt;
     Cmd_Env := []; Dir := "" |}.

Definition mergeEnv (base : list string)
    (overrides : option (gmap string string)) : list string :=
  let m := default ∅ overrides in
  if bool_decide (size m = 0)%nat then base
  else base ++ map (fun k => k +:+ "=" +:+ default "" (m !! k)) (map_range rt m).

(** The CLI path [New] resolves when none is configured. *)
Definition resolveCLIPath : error + string :=
  let cliPath :=
    match os_UserHomeDir rt with
    | inr home =>
        let defaultPath := filepath_Join rt [home; ".local"; "bin"; "claude"] in
        match exec_LookPath rt defaultPath with
        | inr _ => defaultPath
        | inl _ => ""
        end
    | inl _ => ""
    end in
  if streq cliPath "" then
    match exec_LookPath rt "claude" with
    | inl err => inl (ErrCLINotFound err)
    | inr path => inr path
    end
  else inr cliPath.

(** The defaults [New] fills in after the options have been applied. *)
Definition fillDefaults (options : Options) : Options :=
  let options :=
    if streq (PermissionMode options) ""
    then set_PermissionMode defaultPermissionMode options else options in
  let options :=
    if MaxBufferSize options <=? 0
    then set_MaxBufferSize defaultMaxBufferSize options else options in
  let options :=
    match Env options with
    | None => set_Env (Some ∅) options
    | Some _ => options
    end in
  let options :=
    match ExtraArgs options with
    | None => set_ExtraArgs (Some ∅) options
    | Some _ => options
    end in
  options.

Definition New (opts : list Option_) : error + LLM :=
  let options := fold_left (fun o opt => opt o) opts defaultOptions in
  let cliPath := strings.TrimSpace (CLIPath options) in
  let resolved := if streq cliPath "" then resolveCLIPath else inr cliPath in
  match resolved with
  | inl err => inl err
  | inr cliPath => inr {| cliPath := cliPath; opts := fillDefaults options |}
  end.

Definition GenerateContent (l : option LLM)
    (messages : list llms.MessageContent) (options : list CallOption)
    : option llms.ContentResponse * option error :=
  match l with
  | None => (None, Some ErrNilReceiver)
  | Some l =>
  let callOpts :=
    fold_left (fun o opt => opt o) options {| StreamingFunc_ := None |} in
  match splitSystemMessages messages with
  | inl err => (None, Some err)
  | inr (systemFromMessages, nonSystem) =>
  let systemPrompt :=
    mergeSystemPrompt (SystemPrompt (opts l)) systemFromMessages in
  match buildPrompt nonSystem with
  | inl err => (None, Some err)
  | inr prompt =>
  if streq (strings.TrimSpace prompt) "" then (None, Some ErrEmptyPrompt)
  else
  let cmd := buildCommand l prompt systemPrompt in
  let cmd :=
    {| Path := Path cmd; Args := Args cmd;
       Cmd_Env := mergeEnv (os_Environ rt) (Env (opts l));
       Dir := if negb (streq (Cwd (opts l)) "") then Cwd (opts l) else Dir cmd |} in
  let proc := exec_Command rt cmd in
  match StdoutPipe_err proc with
  | Some err => (None, Some (ErrStdoutPipe err))
  | None =>
  match StderrPipe_err proc with
  | Some err => (None, Some (ErrStderrPipe err))
  | None =>
  match Start_err proc with
  | Some err => (None, Some (ErrStartCLI err))
  | None =>
  let '(responseText, genInfo, streamErr) :=
    readStream rt l (Stdout proc) (StreamingFunc_ callOpts) in
  match streamErr with
  | Some err => (None, Some err)
  | None =>
  match Wait_err proc with
  | Some err =>
      let errText := strings.TrimSpace (Stderr proc) in
      if negb (streq errText "")
      then (None, Some (ErrCLIFailed err (Some errText)))
      else (None, Some (ErrCLIFailed err None))
  | None =>
      let choice :=
        {| llms.Content_ := responseText; llms.GenerationInfo := genInfo |} in
      (Some {| llms.Choices := [choice] |}, None)
  end end end end end end end end.

End Client.

(** * Vocabulary of the properties

    Fixtures to run the model on, and the notions the statements below
    are phrased with. *)

(** ** Runtimes, clients and stream lines *)

Definition quietProcess (out : list string) : Process :=
  {| StdoutPipe_err := None; StderrPipe_err := None; Start_err := None;
     Stdout := fun _ => {| lines := out; Err := None |};
     Stderr := ""; Wait_err := None |}.

(** A runtime whose decoder is [decode] and whose child process prints [out]. *)
Definition testRuntime (decode : string -> error + gmap string any)
    (out : list string) : Runtime :=
  {| json_Unmarshal := decode;
     json_MarshalIndent := fun _ => "{}";
     time_Now := fun n => Z.of_nat n;
     map_range := fun m => (map_to_list m).*1;
     os_Environ := [];
     os_UserHomeDir := inl (ErrExternal "no home");
     exec_LookPath := fun p => inr p;
     filepath_Join := fun l => String.concat "/" l;
     exec_Command := fun _ => quietProcess out |}.

(** A runtime whose [range] loops run the other way round. *)
Definition reverseRange (rt : Runtime) : Runtime :=
  {| json_Unmarshal := json_Unmarshal rt;
     json_MarshalIndent := json_MarshalIndent rt;
     time_Now := time_Now rt;
     map_range := fun m => reverse (map_range rt m);
     os_Environ := os_Environ rt;
     os_UserHomeDir := os_UserHomeDir rt;
     exec_LookPath := exec_LookPath rt;
     filepath_Join := filepath_Join rt;
     exec_Command := exec_Command rt |}.

Definition noDecode : string -> error + gmap string any :=
  fun _ => inl (ErrExternal "invalid character").

(** A decoder for two fixed lines. *)
Definition decodeTwo (text1 : string) (payload1 : gmap string any)
    (text2 : string) (payload2 : gmap string any)
    : string -> error + gmap string any :=
  fun line =>
    if streq line text1 then inr payload1
    else if streq line text2 then inr payload2
    else inl (ErrExternal "invalid character").

(** A callback that accepts every chunk. *)
Definition accept : StreamingFunc := fun _ _ => None.

Definition humanMessage (text : string) : llms.MessageContent :=
  {| llms.Role := llms.ChatMessageTypeHuman; llms.Parts := [llms.TextContent text] |}.

Definition textBlock (text : any) : any :=
  AMap {[ "type" := AStr "text"; "text" := text ]}.

Definition toolUseBlock (id name : string) : any :=
  AMap {[ "type" := AStr "tool_use"; "id" := AStr id; "name" := AStr name ]}.

Definition assistantLine (content : any) : gmap string any :=
  {[ "type" := AStr "assistant"; "message" := AMap {[ "content" := content ]} ]}.

Definition hiLine : gmap string any :=
  assistantLine (AList [textBlock (AStr "hi")]).

Definition errorLine : gmap string any :=
  {[ "type" := AStr ""; "error" := AStr "boom" ]}.

Definition systemLine : gmap string any :=
  {[ "type" := AStr "system"; "subtype" := AStr "init" ]}.

(** The cost [0.01] as [encoding/json] decodes it, the nearest binary64:
    [5764607523034235 * 2^-59]. *)
Definition cost001 : spec_float := S754_finite false 5764607523034235 (-59).

Definition costLine (cost : spec_float) : gmap string any :=
  {[ "type" := AStr "result"; "total_cost_usd" := ANum cost ]}.

Definition textModeClient (hook : option ToolEventHook) : LLM :=
  {| cliPath := "claude"; opts := WithToolEventHook hook defaultOptions |}.

Definition extraArgsClient (extraArgs : gmap string string) : LLM :=
  {| cliPath := "claude";
     opts := WithExtraArgs (Some extraArgs) defaultOptions |}.

Definition abxmClient (extraArgs : gmap string string) : LLM :=
  {| cliPath := "claude";
     opts := WithExtraArgs (Some extraArgs)
               (WithModel "m"
                  (WithAllowedTools ["x"] (WithTools ["a"; "b"] defaultOptions))) |}.

Definition readEvent : ToolEvent :=
  {| Type_ := ToolEventUse; ToolName := "Read"; ToolID := "t1";
     Input := Some {[ "file_path" := AStr "a.go" ]}; Output := "";
     Timestamp := 0 |}.

Definition readRequested : ToolEvent :=
  {| Type_ := ToolEventUse; ToolName := "Read"; ToolID := "t1";
     Input := None; Output := ""; Timestamp := 0 |}.

(** ** Content blocks *)

(** The text a content block contributes, if any. *)
Definition blockText (block : any) : option string :=
  match block with
  | AMap blockMap =>
      if streq (assertString (blockMap !! "type")).1 "text" then
        let text := (assertString (blockMap !! "text")).1 in
        if streq text "" then None else Some text
      else None
  | _ => None
  end.

(** The tool call a content block requests, if any. *)
Definition blockToolUse (block : any) : option toolUseInfo :=
  match block with
  | AMap blockMap =>
      if streq (assertString (blockMap !! "type")).1 "tool_use" then
        Some {| ID := getStringField blockMap "id";
                Name := getStringField blockMap "name";
                tu_Input := match blockMap !! "input" with
                            | Some (AMap input) => Some input
                            | _ => None
                            end |}
      else None
  | _ => None
  end.

Definition textsOf (blocks : list any) : list string := omap blockText blocks.

Definition toolUsesOf (blocks : list any) : list toolUseInfo :=
  omap blockToolUse blocks.

(** ** Effects of tool events and of an assistant line *)

(** The hook call an event causes. *)
Definition hookEffects (l : LLM) (event : ToolEvent) : list effect :=
  match ToolEventHook_ (opts l) with
  | Some hook => [CallToolEventHook hook event]
  | None => []
  end.

(** The text an event adds to the output under the configured mode. *)
Definition toolText (rt : Runtime) (l : LLM) (event : ToolEvent) : string :=
  if OutputMode_ (opts l) =? OutputModeText then ""
  else toolSummary rt (OutputMode_ (opts l)) event.

(** Everything an event does to the callbacks: the hook first, then the
    streaming callback with the summary, if there is one. *)
Definition toolEffects (rt : Runtime) (l : LLM)
    (streamingFunc : option StreamingFunc) (event : ToolEvent) : list effect :=
  hookEffects l event
  ++ match streamingFunc with
     | Some _ =>
         if streq (toolText rt l event) "" then []
         else [CallStreamingFunc (toolText rt l event)]
     | None => []
     end.

(** The callback calls made for a list of text blocks. *)
Definition streamEffects (streamingFunc : option StreamingFunc)
    (texts : list string) : list effect :=
  match streamingFunc with
  | Some _ => map CallStreamingFunc texts
  | None => []
  end.

(** The events built for a list of tool calls, the first one at clock
    reading [n]. *)
Fixpoint toolUseEvents (rt : Runtime) (n : nat) (toolUses : list toolUseInfo)
    : list ToolEvent :=
  match toolUses with
  | [] => []
  | tu :: rest =>
      {| Type_ := ToolEventUse; ToolName := Name tu; ToolID := ID tu;
         Input := tu_Input tu; Output := ""; Timestamp := time_Now rt n |}
      :: toolUseEvents rt (S n) rest
  end.

(** The callback accepts every one of the given chunks, whenever called. *)
Definition accepts (streamingFunc : option StreamingFunc)
    (texts : list string) : Prop :=
  forall f history text,
    streamingFunc = Some f -> text ∈ texts -> f history text = None.

(** The order the specification describes: every block is handled where it
    stands in the content list, a text block by streaming and appending its
    text, a [tool_use] block by dispatching its event. *)
Fixpoint spec_blocksInOrder (rt : Runtime) (l : LLM)
    (streamingFunc : option StreamingFunc) (blocks : list any) (st : StreamState)
    : StreamState * option error :=
  match blocks with
  | [] => (st, None)
  | block :: rest =>
      match streamTexts streamingFunc (textsOf [block]) st with
      | (st, Some err) => (st, Some err)
      | (st, None) =>
          spec_blocksInOrder rt l streamingFunc rest
            (dispatchToolUses rt l streamingFunc (toolUsesOf [block]) st)
      end
  end.

(** ** The generation call *)

(** The steps of [GenerateContent] up to the start of the child process. *)
Definition launch (rt : Runtime) (l : LLM) (messages : list llms.MessageContent)
    : error + Process :=
  match splitSystemMessages messages with
  | inl err => inl err
  | inr (systemFromMessages, nonSystem) =>
      match buildPrompt nonSystem with
      | inl err => inl err
      | inr prompt =>
          if streq (strings.TrimSpace prompt) "" then inl ErrEmptyPrompt
          else
            let systemPrompt :=
              mergeSystemPrompt (SystemPrompt (opts l)) systemFromMessages in
            let cmd := buildCommand rt l prompt systemPrompt in
            let proc := exec_Command rt
              {| Path := Path cmd; Args := Args cmd;
                 Cmd_Env := mergeEnv rt (os_Environ rt) (Env (opts l));
                 Dir := if negb (streq (Cwd (opts l)) "")
                        then Cwd (opts l) else Dir cmd |} in
            match StdoutPipe_err proc, StderrPipe_err proc, Start_err proc with
            | Some err, _, _ => inl (ErrStdoutPipe err)
            | None, Some err, _ => inl (ErrStderrPipe err)
            | None, None, Some err => inl (ErrStartCLI err)
            | None, None, None => inr proc
            end
      end
  end.

(** The call options after the caller's mutators. *)
Definition resolveCallOptions (options : list CallOption) : CallOptions :=
  fold_left (fun o opt => opt o) options {| StreamingFunc_ := None |}.

(** The three ways a line makes stream parsing fail, with the error. *)
Inductive parseFailure (rt : Runtime) : string -> error -> Prop :=
  | malformedLine text cause :
      strings.TrimSpace text <> "" ->
      json_Unmarshal rt (strings.TrimSpace text) = inl cause ->
      parseFailure rt text (ErrParseJSON cause)
  | unsupportedContent text payload err :
      strings.TrimSpace text <> "" ->
      json_Unmarshal rt (strings.TrimSpace text) = inr payload ->
      payload !! "type" = Some (AStr "assistant") ->
      extractAssistantContent payload = inl err ->
      parseFailure rt text err
  | cliErrorLine text payload :
      strings.TrimSpace text <> "" ->
      json_Unmarshal rt (strings.TrimSpace text) = inr payload ->
      payload !! "type" = None \/ payload !! "type" = Some (AStr "") ->
      parseFailure rt text (ErrCLIError payload).

(** The fields a [result] line contributes, with the key each is stored under. *)
Definition resultFields : list (string * string) :=
  [("total_cost_usd", "TotalCostUSD"); ("usage", "Usage");
   ("result", "Result"); ("structured_output", "StructuredOutput")].

(** A line keeps a field when it is not a [result] line carrying it. *)
Definition keepsField (rt : Runtime) (from : string) (text : string) : Prop :=
  forall payload,
    json_Unmarshal rt (strings.TrimSpace text) = inr payload ->
    payload !! "type" = Some (AStr "result") ->
    payload !! from = None.

(** ** The argument vector *)

(** The flag, or flag and value, emitted for one key. *)
Definition extraFlag (extraArgs : gmap string string) (key : string)
    : list string :=
  let val := default "" (extraArgs !! key) in
  if streq val "" then ["--" +:+ key] else ["--" +:+ key; val].

(** The flags a condition contributes. *)
Definition optFlags (cond : bool) (flags : list string) : list string :=
  if cond then flags else [].

(** The arguments built before the extra flags are appended. *)
Definition fixedArgs (l : LLM) (systemPrompt : string) : list string :=
  let o := opts l in
  let args := ["--output-format"; "stream-json"; "--verbose"] in
  let args := appendIf (negb (streq systemPrompt ""))
                ["--system-prompt"; systemPrompt] args in
  let args := appendIf (nonEmpty (Tools o))
                ["--tools"; strings.Join (Tools o) ","] args in
  let args := appendIf (nonEmpty (AllowedTools o))
                ["--allowedTools"; strings.Join (AllowedTools o) ","] args in
  let args := appendIf (nonEmpty (DisallowedTools o))
                ["--disallowedTools"; strings.Join (DisallowedTools o) ","] args in
  let args := appendIf (negb (streq (Model o) "")) ["--model"; Model o] args in
  appendIf (negb (streq (PermissionMode o) ""))
    ["--permission-mode"; PermissionMode o] args.

(** How many times [flag] directly followed by [value] occurs in [args]. *)
Fixpoint countPair (flag value : string) (args : list string) : nat :=
  match args with
  | [] => 0
  | a :: rest =>
      match rest with
      | b :: _ => if String.eqb a flag && String.eqb b value then 1 else 0
      | [] => 0
      end + countPair flag value rest
  end%nat.

(** * The rest of the package

    Code the statements above do not need: the names of the enumerations
    and the parser as it was before tool events were added. *)

(** [OutputMode.String]. *)
Definition OutputMode_String (m : OutputMode) : string :=
  if m =? OutputModeText then "text"
  else if m =? OutputModeVerbose then "verbose"
  else if m =? OutputModeFull then "full"
  else "unknown".

(** [ToolEventType.String]. *)
Definition ToolEventType_String (t : ToolEventType) : string :=
  if t =? ToolEventUse then "tool_use"
  else if t =? ToolEventResult then "tool_result"
  else "unknown".

(** ** The text-only parser ([pkg/llm.go]) *)

Module pkg.

(** The loop of [extractAssistantTexts] over the content blocks. *)
Fixpoint extractTexts (blocks : list any) (texts : list string) : list string :=
  match blocks with
  | [] => texts
  | AMap blockMap :: rest =>
      let '(blockType, _) := assertString (blockMap !! "type") in
      if negb (streq blockType "text") then extractTexts rest texts
      else
        let '(text, _) := assertString (blockMap !! "text") in
        if negb (streq text "")
        then extractTexts rest (texts ++ [text])
        else extractTexts rest texts
  | _ :: rest => extractTexts rest texts
  end.

Definition extractAssistantTexts (payload : gmap string any)
    : error + list string :=
  match payload !! "message" with
  | Some (AMap message) =>
      match message !! "content" with
      | None => inl ErrMissingContent
      | Some (AList blocks) => inr (extractTexts blocks [])
      | Some (AStr blocks) => if streq blocks "" then inr [] else inr [blocks]
      | Some content => inl (ErrUnsupportedAssistantContent content)
      end
  | _ => inl ErrMissingMessage
  end.

Section Parser.

Context (rt : Runtime).

(** The body of the [switch msgType] of the text-only [readStream]. *)
Definition classify (streamingFunc : option StreamingFunc)
    (payload : gmap string any) (st : StreamState)
    : StreamState * option error :=
  let '(msgType, _) := assertString (payload !! "type") in
  if streq msgType "assistant" then
    match extractAssistantTexts payload with
    | inl err => (st, Some err)
    | inr texts => streamTexts streamingFunc texts st
    end
  else if streq msgType "result" then
    (set_generationInfo (mergeResultInfo (generationInfo st) payload) st, None)
  else if streq msgType "" then
    (st, Some (ErrCLIError payload))
  else (st, None).

Fixpoint scanLoop (streamingFunc : option StreamingFunc)
    (scanned : list string) (st : StreamState) : StreamState * option error :=
  match scanned with
  | [] => (st, None)
  | text :: rest =>
      let line := strings.TrimSpace text in
      if streq line "" then scanLoop streamingFunc rest st
      else
        match json_Unmarshal rt line with
        | inl err => (st, Some (ErrParseJSON err))
        | inr payload =>
            match classify streamingFunc payload st with
            | (st, Some err) => (st, Some err)
            | (st, None) => scanLoop streamingFunc rest st
            end
        end
  end.

Definition readStream_run (l : LLM) (stdout : Reader)
    (streamingFunc : option StreamingFunc) : StreamState * option error :=
  let scanner := stdout (MaxBufferSize (opts l)) in
  match scanLoop streamingFunc (lines scanner) initState with
  | (st, Some err) => (st, Some err)
  | (st, None) =>
      match Err scanner with
      | Some err => (st, Some (ErrReadStdout err))
      | None => (st, None)
      end
  end.

Definition readStream (l : LLM) (stdout : Reader)
    (streamingFunc : option StreamingFunc)
    : string * option (gmap string any) * option error :=
  let '(st, err) := readStream_run l stdout streamingFunc in
  (builder st, generationInfo st, err).

End Parser.

End pkg.

(** ** Vocabulary of the further properties *)

(** The parts of a message rendered one by one; the first part that cannot
    be rendered gives the error. *)
Fixpoint renderParts (parts : list llms.ContentPart) : error + list string :=
  match parts with
  | [] => inr []
  | part :: rest =>
      match partToText part with
      | inl err => inl err
      | inr t =>
          match renderParts rest with
          | inl err => inl err
          | inr ts => inr (t :: ts)
          end
      end
  end.


(** A message renders to nothing but white space. *)
Definition blank (msg : llms.MessageContent) : Prop :=
  exists text, messageToText msg = inr text /\ strings.TrimSpace text = "".


(** The part of the prompt a message contributes, if any. *)
Definition promptPart (msg : llms.MessageContent) : option string :=
  match messageToText msg with
  | inr text =>
      let text := strings.TrimSpace text in
      if streq text "" then None
      else if streq (rolePrefix (llms.Role msg)) "" then Some text
      else Some (rolePrefix (llms.Role msg) +:+ ": " +:+ text)
  | inl _ => None
  end.

(** The byte sequence starts with a white-space rune. *)
Definition headSpace (bs : list ascii) : bool :=
  match bs with
  | [] => false
  | b0 :: t0 =>
      strings.asciiSpace b0
      || match t0 with
         | [] => false
         | b1 :: t1 =>
             strings.space2 b0 b1
             || match t1 with
                | [] => false
                | b2 :: _ => strings.space3 b0 b1 b2
                end
         end
  end.

(** The texts a line of the stream adds to the output: those of an
    assistant line whose content can be extracted. *)
Definition lineTexts (rt : Runtime) (text : string) : list string :=
  let line := strings.TrimSpace text in
  if streq line "" then []
  else
    match json_Unmarshal rt line with
    | inl _ => []
    | inr payload =>
        if streq (assertString (payload !! "type")).1 "assistant" then
          match extractAssistantContent payload with
          | inl _ => []
          | inr (texts, _) => texts
          end
        else []
    end.

(** The last positive size of a list, or [d] when there is none. *)
Definition lastPositive (sizes : list Z) (d : Z) : Z :=
  fold_left (fun acc size => if 0 <? size then size else acc) sizes d.

(** The applied options of [New]. *)
Definition applyOptions (options : list Option_) : Options :=
  fold_left (fun o opt => opt o) options defaultOptions.

(** An environment entry [k=v]. *)
Definition envEntry (kv : string * string) : string := kv.1 +:+ "=" +:+ kv.2.

(** A callback that refuses one chunk. *)
Definition refuse (chunk : string) : StreamingFunc :=
  fun _ text => if streq text chunk then Some (ErrExternal "refused") else None.

(** A process that prints [out], then fails as told. *)
Definition failingProcess (out : list string) (read wait : option error)
    (stderr : string) : Process :=
  {| StdoutPipe_err := None; StderrPipe_err := None; Start_err := None;
     Stdout := fun _ => {| lines := out; Err := read |};
     Stderr := stderr; Wait_err := wait |}.

(** The runtime [rt] with [proc] as the process of every command. *)
Definition withProcess (rt : Runtime) (proc : Process) : Runtime :=
  {| json_Unmarshal := json_Unmarshal rt;
     json_MarshalIndent := json_MarshalIndent rt;
     time_Now := time_Now rt;
     map_range := map_range rt;
     os_Environ := os_Environ rt;
     os_UserHomeDir := os_UserHomeDir rt;
     exec_LookPath := exec_LookPath rt;
     filepath_Join := filepath_Join rt;
     exec_Command := fun _ => proc |}.

(** Two states that differ at most in the clock. *)
Definition sameOutput (st1 st2 : StreamState) : Prop :=
  builder st1 = builder st2
  /\ generationInfo st1 = generationInfo st2
  /\ trace st1 = trace st2.

(** * Properties *)

(** ** Sanity checks of the model *)

Example mergeSystemPrompt_both :
  mergeSystemPrompt "B" "A" = "B" +:+ strings.LF +:+ strings.LF +:+ "A".
Proof. reflexivity. Qed.

Example TrimSpace_ascii : strings.TrimSpace "  a b  " = "a b".
Proof. reflexivity. Qed.

(** U+00A0 before and U+3000 after are white space; a lone continuation
    byte is not. *)
Example TrimSpace_unicode :
  strings.TrimSpace
    (strings.of_bytes ["194"; "160"; "a"; "128"; "227"; "128"; "128"]%char)
  = strings.of_bytes ["a"; "128"]%char.
Proof. reflexivity. Qed.

Example buildPrompt_roles :
  buildPrompt [humanMessage " hi "; humanMessage "  ";
               {| llms.Role := llms.ChatMessageTypeAI;
                  llms.Parts := [llms.TextContent "a";
                                 llms.ToolCall "1" "function" None] |}]
  = inr ("User: hi" +:+ strings.LF +:+ strings.LF
         +:+ "Assistant: a" +:+ strings.LF +:+ "[ToolCall]").
Proof. reflexivity. Qed.

Example buildPrompt_unsupported :
  buildPrompt [{| llms.Role := llms.ChatMessageTypeHuman;
                  llms.Parts := [llms.ImageURLContent "u" ""] |}]
  = inl (ErrUnsupportedContentPart (llms.ImageURLContent "u" "")).
Proof. reflexivity. Qed.

Example wrench_utf8 : strings.bytes wrench = ["240"; "159"; "148"; "167"]%char.
Proof. reflexivity. Qed.

Example summary_bash :
  formatToolUseSummary "Bash" (Some {[ "command" := AStr "ls" ]})
  = strings.LF +:+ wrench +:+ " Bash: ls" +:+ strings.LF.
Proof. vm_compute. reflexivity. Qed.

(** Closes a decidable goal by evaluating its decision procedure. *)
Ltac by_decide := apply (bool_decide_unpack _); vm_compute; exact I.

(** ** Properties: prompt builder *)

Lemma splitSystemMessages_loop_no_system messages systemParts others :
  Forall (fun msg => llms.Role msg <> llms.ChatMessageTypeSystem) messages ->
  splitSystemMessages_loop messages systemParts others
  = inr (systemParts, others ++ messages).
Proof.
  intros Hall. revert others.
  induction Hall as [|msg rest Hrole _ IH]; intros others; simpl.
  - by rewrite app_nil_r.
  - unfold streq. rewrite bool_decide_eq_false_2 by exact Hrole.
    rewrite IH. by rewrite <- app_assoc.
Qed.

Lemma splitSystemMessages_no_system messages :
  Forall (fun msg => llms.Role msg <> llms.ChatMessageTypeSystem) messages ->
  splitSystemMessages messages = inr ("", messages).
Proof.
  intros Hall. unfold splitSystemMessages.
  by rewrite splitSystemMessages_loop_no_system.
Qed.

Lemma mergeSystemPrompt_no_extra base :
  mergeSystemPrompt base "" = strings.TrimSpace base.
Proof.
  unfold mergeSystemPrompt.
  change (strings.TrimSpace "") with "".
  unfold streq. case_bool_decide as Hb; [by rewrite Hb | done].
Qed.

(** C3, as stated, fails: with no system-role message and the configured
    base prompt [" B"], the extracted system text is empty but the merged
    prompt is ["B"], not the base prompt character for character. *)
Lemma C3_base_prompt_is_trimmed :
  splitSystemMessages [humanMessage "hi"] = inr ("", [humanMessage "hi"])
  /\ mergeSystemPrompt " B" "" = "B"
  /\ mergeSystemPrompt " B" "" <> " B".
Proof. split; [reflexivity | split; [reflexivity | discriminate]]. Qed.

(** C3, amended: for every message sequence with no system-role message,
    the extracted system text is empty, every message is kept, and the
    merged system prompt is the configured base prompt with its leading and
    trailing white space removed; it is the base prompt verbatim whenever
    trimming leaves the base prompt as it is. *)
Theorem C3_no_system_message_merges_trimmed_base
    (base : string) (messages : list llms.MessageContent) :
  Forall (fun msg => llms.Role msg <> llms.ChatMessageTypeSystem) messages ->
  splitSystemMessages messages = inr ("", messages)
  /\ mergeSystemPrompt base "" = strings.TrimSpace base
  /\ (strings.TrimSpace base = base -> mergeSystemPrompt base "" = base).
Proof.
  intros Hall. split; [by apply splitSystemMessages_no_system|].
  split; [apply mergeSystemPrompt_no_extra|].
  intros Hb. by rewrite mergeSystemPrompt_no_extra.
Qed.

Lemma C3_witness :
  splitSystemMessages [humanMessage "hi"] = inr ("", [humanMessage "hi"])
  /\ mergeSystemPrompt " B" "" = strings.TrimSpace " B"
  /\ (strings.TrimSpace " B" = " B" -> mergeSystemPrompt " B" "" = " B").
Proof.
  apply (C3_no_system_message_merges_trimmed_base " B" [humanMessage "hi"]).
  repeat constructor. discriminate.
Defined.

(** ** Properties: content extraction *)

Lemma extractBlocks_omap blocks : forall texts toolUses,
  extractBlocks blocks texts toolUses
  = (texts ++ textsOf blocks, toolUses ++ toolUsesOf blocks).
Proof.
  unfold textsOf, toolUsesOf.
  induction blocks as [|block rest IH]; intros texts toolUses.
  - by rewrite !app_nil_r.
  - destruct block as [| | | |bs|blockMap]; simpl; try apply IH.
    destruct (assertString (blockMap !! "type")) as [blockType ok].
    destruct (assertString (blockMap !! "text")) as [text ok'].
    simpl. unfold streq.
    repeat case_bool_decide; simplify_eq; simpl;
      rewrite IH, <- ?app_assoc; reflexivity.
Qed.

Lemma extractAssistantContent_list payload message blocks :
  payload !! "message" = Some (AMap message) ->
  message !! "content" = Some (AList blocks) ->
  extractAssistantContent payload = inr (textsOf blocks, toolUsesOf blocks).
Proof.
  intros Hm Hc. unfold extractAssistantContent. rewrite Hm, Hc.
  by rewrite extractBlocks_omap.
Qed.

Lemma getStringField_not_string (m : gmap string any) key :
  (forall s, m !! key <> Some (AStr s)) -> getStringField m key = "".
Proof.
  intros Hns. unfold getStringField.
  destruct (m !! key) as [[| | |s| |]|]; try reflexivity.
  by destruct (Hns s).
Qed.

Lemma getStringField_string (m : gmap string any) key s :
  m !! key = Some (AStr s) -> getStringField m key = s.
Proof. intros Hs. unfold getStringField. by rewrite Hs. Qed.

(** C10: on an assistant line whose [message.content] is a list, content
    extraction returns no error; an element that is not a JSON object is
    skipped, a text block whose text is empty or not a string contributes
    nothing, and a [tool_use] block always yields a tool call, whose id
    (name) is the empty string when the field is missing or not a string. *)
Theorem C10_list_content_never_fails
    (payload message : gmap string any) (blocks : list any) :
  payload !! "message" = Some (AMap message) ->
  message !! "content" = Some (AList blocks) ->
  extractAssistantContent payload = inr (extractBlocks blocks [] [])
  /\ (forall pre block post,
        (forall m, block <> AMap m) ->
        extractBlocks (pre ++ block :: post) [] []
        = extractBlocks (pre ++ post) [] [])
  /\ (forall pre m post,
        m !! "type" = Some (AStr "text") ->
        (forall s, m !! "text" = Some (AStr s) -> s = "") ->
        extractBlocks (pre ++ AMap m :: post) [] []
        = extractBlocks (pre ++ post) [] [])
  /\ (forall pre m post,
        m !! "type" = Some (AStr "tool_use") ->
        exists tu,
          extractBlocks (pre ++ AMap m :: post) [] []
          = (let '(texts, toolUses) := extractBlocks pre [] [] in
             extractBlocks post texts (toolUses ++ [tu]))
          /\ ((forall s, m !! "id" <> Some (AStr s)) -> ID tu = "")
          /\ ((forall s, m !! "name" <> Some (AStr s)) -> Name tu = "")
          /\ (forall s, m !! "id" = Some (AStr s) -> ID tu = s)
          /\ (forall s, m !! "name" = Some (AStr s) -> Name tu = s)).
Proof.
  intros Hm Hc. split; [|split; [|split]].
  - rewrite (extractAssistantContent_list _ _ _ Hm Hc).
    by rewrite extractBlocks_omap.
  - intros pre block post Hobj. rewrite !extractBlocks_omap.
    unfold textsOf, toolUsesOf. rewrite !omap_app. simpl.
    destruct block as [| | | | |m]; try reflexivity. by destruct (Hobj m).
  - intros pre m post Hty Htext. rewrite !extractBlocks_omap.
    unfold textsOf, toolUsesOf. rewrite !omap_app. simpl. rewrite Hty. simpl.
    destruct (m !! "text") as [[| | |s| |]|] eqn:Ht; simpl; try reflexivity.
    rewrite (Htext s eq_refl). reflexivity.
  - intros pre m post Hty.
    exists {| ID := getStringField m "id"; Name := getStringField m "name";
              tu_Input := match m !! "input" with
                          | Some (AMap input) => Some input
                          | _ => None
                          end |}.
    split; [|split; [|split; [|split]]]; simpl.
    + rewrite !extractBlocks_omap.
      unfold textsOf, toolUsesOf. rewrite !omap_app. simpl. rewrite Hty. simpl.
      by rewrite <- !app_assoc.
    + apply getStringField_not_string.
    + apply getStringField_not_string.
    + apply getStringField_string.
    + apply getStringField_string.
Qed.

Lemma C10_witness :
  extractAssistantContent
    (assistantLine (AList [ANum cost001; textBlock (AStr ""); textBlock (AStr "hi")]))
  = inr (["hi"], []).
Proof.
  pose proof (C10_list_content_never_fails
    (assistantLine (AList [ANum cost001; textBlock (AStr ""); textBlock (AStr "hi")]))
    {[ "content" := AList [ANum cost001; textBlock (AStr ""); textBlock (AStr "hi")] ]}
    [ANum cost001; textBlock (AStr ""); textBlock (AStr "hi")]
    eq_refl eq_refl) as [Hrun _].
  rewrite Hrun. reflexivity.
Defined.

(** ** Properties: tool events *)

Lemma append_empty_r (s : string) : s +:+ "" = s.
Proof. induction s as [|c s IH]; [done | exact (f_equal (String c) IH)]. Qed.

Lemma append_assoc (a b c : string) : (a +:+ b) +:+ c = a +:+ (b +:+ c).
Proof. induction a as [|x a IH]; [done | exact (f_equal (String x) IH)]. Qed.

Section ToolEvents.

Context (rt : Runtime).

Lemma handleToolEvent_trace l event streamingFunc st :
  trace (handleToolEvent rt l event streamingFunc st)
  = trace st ++ toolEffects rt l streamingFunc event.
Proof.
  unfold handleToolEvent, toolEffects, toolText, hookEffects.
  destruct (ToolEventHook_ (opts l)) as [hook|];
    destruct (OutputMode_ (opts l) =? OutputModeText);
    destruct streamingFunc as [f|];
    unfold streq; repeat case_bool_decide; simpl;
    rewrite ?app_nil_r, <- ?app_assoc; try done; congruence.
Qed.

Lemma handleToolEvent_builder l event streamingFunc st :
  builder (handleToolEvent rt l event streamingFunc st)
  = builder st +:+ toolText rt l event.
Proof.
  unfold handleToolEvent, toolText.
  destruct (ToolEventHook_ (opts l)) as [hook|];
    destruct (OutputMode_ (opts l) =? OutputModeText);
    destruct streamingFunc as [f|];
    unfold streq; repeat case_bool_decide; simpl;
    rewrite ?append_empty_r; try done;
    match goal with H : _ = "" |- _ => by rewrite H, append_empty_r end.
Qed.

Lemma handleToolEvent_frame l event streamingFunc st :
  generationInfo (handleToolEvent rt l event streamingFunc st) = generationInfo st
  /\ ticks (handleToolEvent rt l event streamingFunc st) = ticks st.
Proof.
  unfold handleToolEvent.
  destruct (ToolEventHook_ (opts l)) as [hook|];
    destruct (OutputMode_ (opts l) =? OutputModeText);
    destruct streamingFunc as [f|];
    repeat case_match; simpl; done.
Qed.

End ToolEvents.

(** C5: in text-only mode, handling a tool-requested event leaves the
    accumulated output text unchanged and does not invoke the streaming
    callback; the tool event hook, when set, is invoked exactly once, with
    that event. The generation info is untouched too. *)
Theorem C5_text_mode_only_runs_hook
    (rt : Runtime) (l : LLM) (event : ToolEvent)
    (streamingFunc : option StreamingFunc) (st : StreamState) :
  Type_ event = ToolEventUse ->
  OutputMode_ (opts l) = OutputModeText ->
  let st' := handleToolEvent rt l event streamingFunc st in
  builder st' = builder st
  /\ generationInfo st' = generationInfo st
  /\ trace st' = trace st ++ match ToolEventHook_ (opts l) with
                             | Some hook => [CallToolEventHook hook event]
                             | None => []
                             end
  /\ (forall chunk, CallStreamingFunc chunk ∉ drop (length (trace st)) (trace st')).
Proof.
  intros _ Hmode st'. subst st'.
  assert (Htr : trace (handleToolEvent rt l event streamingFunc st)
                = trace st ++ hookEffects l event).
  { rewrite handleToolEvent_trace. unfold toolEffects, toolText.
    rewrite Hmode. simpl. destruct streamingFunc; by rewrite app_nil_r. }
  split; [|split; [|split]].
  - rewrite handleToolEvent_builder. unfold toolText. rewrite Hmode. simpl.
    apply append_empty_r.
  - apply handleToolEvent_frame.
  - exact Htr.
  - intros chunk. rewrite Htr, drop_app_length. unfold hookEffects.
    destruct (ToolEventHook_ (opts l)) as [hook|].
    + intros Hin. apply list_elem_of_singleton in Hin. discriminate.
    + apply not_elem_of_nil.
Qed.

Lemma C5_witness :
  let st' := handleToolEvent (testRuntime noDecode []) (textModeClient (Some 7%nat))
               readEvent (Some accept) (WriteString "so far" initState) in
  builder st' = "so far" /\ trace st' = [CallToolEventHook 7%nat readEvent].
Proof.
  pose proof (C5_text_mode_only_runs_hook (testRuntime noDecode [])
    (textModeClient (Some 7%nat)) readEvent (Some accept)
    (WriteString "so far" initState) eq_refl eq_refl) as (Hb & _ & Ht & _).
  split; [exact Hb | exact Ht].
Defined.

(** ** Properties: client construction *)

Lemma fillDefaults_MaxBufferSize options :
  MaxBufferSize (fillDefaults options)
  = if MaxBufferSize options <=? 0 then defaultMaxBufferSize
    else MaxBufferSize options.
Proof.
  unfold fillDefaults. destruct options as [? ? ? ? pm ? ? ? env extra size ? ? ? ? ? ?].
  simpl. destruct (streq pm ""); simpl;
    destruct (size <=? 0); simpl; destruct env, extra; reflexivity.
Qed.

(** C9: a non-positive size makes the max-buffer-size option a no-op, and
    a constructed client always has a strictly positive max buffer size:
    1 MiB when the options left it non-positive (with no option at all it is
    the default 1 MiB), the configured value otherwise. That value is the
    cap the stream parser gives its line scanner. *)
Theorem C9_max_buffer_size_positive :
  (forall (size : Z) (o : Options),
     size <= 0 -> WithMaxBufferSize size o = o)
  /\ (forall (rt : Runtime) (options : list Option_) (l : LLM),
        New rt options = inr l ->
        0 < MaxBufferSize (opts l)
        /\ (let applied := fold_left (fun o opt => opt o) options defaultOptions in
            (MaxBufferSize applied <= 0 -> MaxBufferSize (opts l) = 1048576)
            /\ (0 < MaxBufferSize applied ->
                MaxBufferSize (opts l) = MaxBufferSize applied))
        /\ (options = [] -> MaxBufferSize (opts l) = 1048576)
        /\ (forall stdout streamingFunc,
              readStream_run rt l stdout streamingFunc
              = readStream_run rt l (fun _ => stdout (MaxBufferSize (opts l)))
                  streamingFunc)).
Proof.
  split.
  { intros size o Hsize. unfold WithMaxBufferSize.
    destruct (0 <? size) eqn:Hpos; [lia | reflexivity]. }
  intros rt options l Hnew.
  assert (Hopts : opts l = fillDefaults
            (fold_left (fun o opt => opt o) options defaultOptions)).
  { unfold New in Hnew.
    destruct (if streq _ "" then _ else _) as [err|path]; [discriminate|].
    by inversion Hnew. }
  split; [|split; [|split]].
  - rewrite Hopts, fillDefaults_MaxBufferSize.
    destruct (_ <=? 0) eqn:Hle; [reflexivity | lia].
  - simpl. rewrite Hopts, fillDefaults_MaxBufferSize.
    destruct (_ <=? 0) eqn:Hle; split; intros; try reflexivity; lia.
  - intros ->. rewrite Hopts. reflexivity.
  - reflexivity.
Qed.

Lemma C9_witness :
  WithMaxBufferSize (-1) defaultOptions = defaultOptions
  /\ 0 < MaxBufferSize (opts {| cliPath := "claude"; opts := defaultOptions |}).
Proof.
  destruct C9_max_buffer_size_positive as [Hnoop Hnew].
  split.
  - apply (Hnoop (-1) defaultOptions). lia.
  - apply (Hnew (testRuntime noDecode []) [WithMaxBufferSize (-1)]
             {| cliPath := "claude"; opts := defaultOptions |}).
    reflexivity.
Defined.

(** ** Properties: stream parser *)

Section StreamParser.

Context (rt : Runtime) (l : LLM) (streamingFunc : option StreamingFunc).

(** One turn of the scanner loop on a line that is not blank and decodes. *)
Lemma scanLoop_decoded text rest payload st :
  strings.TrimSpace text <> "" ->
  json_Unmarshal rt (strings.TrimSpace text) = inr payload ->
  scanLoop rt l streamingFunc (text :: rest) st
  = match classify rt l streamingFunc payload st with
    | (st', Some err) => (st', Some err)
    | (st', None) => scanLoop rt l streamingFunc rest st'
    end.
Proof.
  intros Hline Hjson. simpl. unfold streq.
  rewrite bool_decide_eq_false_2 by exact Hline. by rewrite Hjson.
Qed.

Lemma scanLoop_malformed text rest cause st :
  strings.TrimSpace text <> "" ->
  json_Unmarshal rt (strings.TrimSpace text) = inl cause ->
  scanLoop rt l streamingFunc (text :: rest) st = (st, Some (ErrParseJSON cause)).
Proof.
  intros Hline Hjson. simpl. unfold streq.
  rewrite bool_decide_eq_false_2 by exact Hline. by rewrite Hjson.
Qed.

(** The loop over a stream read in two parts. *)
Lemma scanLoop_app pre rest : forall st,
  scanLoop rt l streamingFunc (pre ++ rest) st
  = match scanLoop rt l streamingFunc pre st with
    | (st', Some err) => (st', Some err)
    | (st', None) => scanLoop rt l streamingFunc rest st'
    end.
Proof.
  induction pre as [|text pre IH]; intros st; simpl; [reflexivity|].
  destruct (streq (strings.TrimSpace text) ""); [apply IH|].
  destruct (json_Unmarshal rt (strings.TrimSpace text)) as [cause|payload];
    [reflexivity|].
  destruct (classify rt l streamingFunc payload st) as [st' [err|]];
    [reflexivity | apply IH].
Qed.

Lemma classify_empty_type payload st :
  payload !! "type" = None \/ payload !! "type" = Some (AStr "") ->
  classify rt l streamingFunc payload st = (st, Some (ErrCLIError payload)).
Proof. intros [Hty|Hty]; unfold classify; by rewrite Hty. Qed.

Lemma classify_other_type payload st msgType :
  payload !! "type" = Some (AStr msgType) ->
  msgType ∉ ["assistant"; "tool_result"; "result"; ""] ->
  classify rt l streamingFunc payload st = (st, None).
Proof.
  intros Hty Hother. unfold classify. rewrite Hty. simpl.
  unfold streq. repeat case_bool_decide; try reflexivity; subst msgType;
    exfalso; apply Hother; set_solver.
Qed.

End StreamParser.

(** C4: a line that decodes to an object whose [type] is absent or the
    empty string stops the parser, whatever else the object holds and
    whatever follows: the parser returns the text and generation info
    accumulated before the line together with the CLI error carrying the
    decoded payload, and performs no further effect. A line whose [type] is
    a non-empty string other than [assistant], [tool_result] and [result]
    changes nothing and parsing goes on with the next line. *)
Theorem C4_empty_type_is_terminal
    (rt : Runtime) (l : LLM) (streamingFunc : option StreamingFunc)
    (text : string) (payload : gmap string any) :
  strings.TrimSpace text <> "" ->
  json_Unmarshal rt (strings.TrimSpace text) = inr payload ->
  (payload !! "type" = None \/ payload !! "type" = Some (AStr "") ->
     (forall rest st,
        scanLoop rt l streamingFunc (text :: rest) st
        = (st, Some (ErrCLIError payload)))
     /\ (forall stdout pre rest st,
           lines (stdout (MaxBufferSize (opts l))) = pre ++ text :: rest ->
           scanLoop rt l streamingFunc pre initState = (st, None) ->
           readStream rt l stdout streamingFunc
           = (builder st, generationInfo st, Some (ErrCLIError payload))))
  /\ (forall msgType,
        payload !! "type" = Some (AStr msgType) ->
        msgType ∉ ["assistant"; "tool_result"; "result"; ""] ->
        forall rest st,
          scanLoop rt l streamingFunc (text :: rest) st
          = scanLoop rt l streamingFunc rest st).
Proof.
  intros Hline Hjson. split.
  - intros Hty.
    assert (Hstop : forall rest st,
      scanLoop rt l streamingFunc (text :: rest) st
      = (st, Some (ErrCLIError payload))).
    { intros rest st. rewrite (scanLoop_decoded _ _ _ _ _ payload) by done.
      by rewrite classify_empty_type. }
    split; [exact Hstop|].
    intros stdout pre rest st Hlines Hpre.
    unfold readStream, readStream_run.
    by rewrite Hlines, scanLoop_app, Hpre, Hstop.
  - intros msgType Hty Hother rest st.
    rewrite (scanLoop_decoded _ _ _ _ _ payload) by done.
    by rewrite (classify_other_type _ _ _ _ _ msgType).
Qed.

Lemma C4_witness :
  let rt := testRuntime (decodeTwo "E" errorLine "S" systemLine) [] in
  scanLoop rt (textModeClient None) None ["S"; " E "; "S"] initState
  = (initState, Some (ErrCLIError errorLine)).
Proof.
  intros rt.
  destruct (C4_empty_type_is_terminal rt (textModeClient None) None "S" systemLine)
    as [_ Hskip]; [discriminate | reflexivity |].
  rewrite (Hskip "system") by (try reflexivity; by_decide).
  destruct (C4_empty_type_is_terminal rt (textModeClient None) None " E " errorLine)
    as [Hstop _]; [discriminate | reflexivity |].
  apply Hstop. right. reflexivity.
Defined.

(** ** Properties: the generation call *)

Section Generation.

Context (rt : Runtime).

Lemma GenerateContent_launch l messages options :
  GenerateContent rt (Some l) messages options
  = match launch rt l messages with
    | inl err => (None, Some err)
    | inr proc =>
        match readStream rt l (Stdout proc)
                (StreamingFunc_ (resolveCallOptions options)) with
        | (_, _, Some err) => (None, Some err)
        | (responseText, genInfo, None) =>
            match Wait_err proc with
            | Some err =>
                let errText := strings.TrimSpace (Stderr proc) in
                if negb (streq errText "")
                then (None, Some (ErrCLIFailed err (Some errText)))
                else (None, Some (ErrCLIFailed err None))
            | None =>
                (Some {| llms.Choices :=
                           [{| llms.Content_ := responseText;
                               llms.GenerationInfo := genInfo |}] |}, None)
            end
        end
    end.
Proof.
  unfold GenerateContent, launch, resolveCallOptions.
  destruct (splitSystemMessages messages) as [err|[sys nonSystem]]; [done|].
  destruct (buildPrompt nonSystem) as [err|prompt]; [done|].
  destruct (streq (strings.TrimSpace prompt) ""); [done|].
  cbv zeta.
  destruct (StdoutPipe_err _) as [err|]; [done|].
  destruct (StderrPipe_err _) as [err|]; [done|].
  destruct (Start_err _) as [err|]; [done|].
  destruct (readStream _ _ _ _) as [[text genInfo] [err|]]; done.
Qed.

(** Whatever makes [readStream] fail, the call returns that error alone. *)
Lemma GenerateContent_stream_error l messages options proc text genInfo err :
  launch rt l messages = inr proc ->
  readStream rt l (Stdout proc) (StreamingFunc_ (resolveCallOptions options))
  = (text, genInfo, Some err) ->
  GenerateContent rt (Some l) messages options = (None, Some err).
Proof. intros Hl Hr. by rewrite GenerateContent_launch, Hl, Hr. Qed.

Lemma scanLoop_parseFailure l streamingFunc text rest st err :
  parseFailure rt text err ->
  scanLoop rt l streamingFunc (text :: rest) st = (st, Some err).
Proof.
  intros [t cause Hline Hjson|t payload e Hline Hjson Hty Hex|t payload Hline Hjson Hty].
  - by apply scanLoop_malformed.
  - rewrite (scanLoop_decoded _ _ _ _ _ payload) by done.
    unfold classify. rewrite Hty. simpl. by rewrite Hex.
  - rewrite (scanLoop_decoded _ _ _ _ _ payload) by done.
    by rewrite classify_empty_type.
Qed.

End Generation.

(** C2: when the child process has been started and a line of its output
    makes stream parsing fail (malformed JSON, an assistant line whose
    content cannot be extracted, or a line with an empty or missing type),
    [GenerateContent] returns no response, only that error; the text
    accumulated up to the line is not returned. *)
Theorem C2_stream_failure_returns_only_error
    (rt : Runtime) (l : LLM) (messages : list llms.MessageContent)
    (options : list CallOption) (proc : Process)
    (pre rest : list string) (text : string) (st : StreamState) (err : error) :
  launch rt l messages = inr proc ->
  lines (Stdout proc (MaxBufferSize (opts l))) = pre ++ text :: rest ->
  scanLoop rt l (StreamingFunc_ (resolveCallOptions options)) pre initState
  = (st, None) ->
  parseFailure rt text err ->
  readStream rt l (Stdout proc) (StreamingFunc_ (resolveCallOptions options))
  = (builder st, generationInfo st, Some err)
  /\ GenerateContent rt (Some l) messages options = (None, Some err).
Proof.
  intros Hlaunch Hlines Hpre Hfail.
  assert (Hread : readStream rt l (Stdout proc)
                    (StreamingFunc_ (resolveCallOptions options))
                  = (builder st, generationInfo st, Some err)).
  { unfold readStream, readStream_run.
    rewrite Hlines, scanLoop_app, Hpre.
    by rewrite (scanLoop_parseFailure _ _ _ _ _ _ err). }
  split; [exact Hread|].
  by apply (GenerateContent_stream_error _ _ _ _ proc _ _ _ Hlaunch Hread).
Qed.

Lemma C2_witness :
  GenerateContent (testRuntime (decodeTwo "A" hiLine "E" errorLine) ["A"; "{bad"])
    (Some (textModeClient None)) [humanMessage "hello"] []
  = (None, Some (ErrParseJSON (ErrExternal "invalid character"))).
Proof.
  apply (C2_stream_failure_returns_only_error
           (testRuntime (decodeTwo "A" hiLine "E" errorLine) ["A"; "{bad"])
           (textModeClient None) [humanMessage "hello"] []
           (quietProcess ["A"; "{bad"]) ["A"] [] "{bad"
           (WriteString "hi" initState)).
  - vm_compute. reflexivity.
  - reflexivity.
  - vm_compute. reflexivity.
  - apply malformedLine; [discriminate | reflexivity].
Defined.

(** ** Properties: generation info *)

Lemma mergeResultInfo_lookup existing payload from to :
  (from, to) ∈ resultFields ->
  mergeResultInfo existing payload !! to
  = match payload !! from with
    | Some v => Some v
    | None => default ∅ existing !! to
    end.
Proof.
  intros Hin. unfold resultFields in Hin. set_unfold in Hin.
  destruct_or!; simplify_eq; unfold mergeResultInfo, mergeField;
    destruct (payload !! "total_cost_usd"), (payload !! "usage"),
      (payload !! "result"), (payload !! "structured_output");
    by simplify_map_eq.
Qed.

Lemma is_result_dec (payload : gmap string any) :
  {payload !! "type" = Some (AStr "result")}
  + {payload !! "type" <> Some (AStr "result")}.
Proof.
  destruct (payload !! "type") as [[| | |s| |]|]; try (right; discriminate).
  destruct (decide (s = "result")) as [->|Hne]; [by left | right; congruence].
Qed.

Section GenerationInfo.

Context (rt : Runtime) (l : LLM) (streamingFunc : option StreamingFunc).

Lemma streamTexts_generationInfo texts : forall st,
  generationInfo (streamTexts streamingFunc texts st).1 = generationInfo st.
Proof.
  induction texts as [|text rest IH]; intros st; simpl; [reflexivity|].
  destruct streamingFunc as [f|]; [|by rewrite IH].
  destruct (f (trace st) text); [reflexivity | by rewrite IH].
Qed.

Lemma dispatchToolUses_generationInfo toolUses : forall st,
  generationInfo (dispatchToolUses rt l streamingFunc toolUses st)
  = generationInfo st.
Proof.
  induction toolUses as [|tu rest IH]; intros st; simpl; [reflexivity|].
  rewrite IH. by destruct (handleToolEvent_frame rt l (toolUseEvent rt tu st)
                             streamingFunc (tick st)) as [-> _].
Qed.

(** A line that is not a [result] line leaves the generation info alone. *)
Lemma classify_generationInfo payload st :
  payload !! "type" <> Some (AStr "result") ->
  generationInfo (classify rt l streamingFunc payload st).1 = generationInfo st.
Proof.
  intros Hty. unfold classify.
  destruct (assertString (payload !! "type")) as [msgType ok] eqn:Emt.
  unfold streq. repeat case_bool_decide; try reflexivity.
  - destruct (extractAssistantContent payload) as [err|[texts toolUses]];
      [reflexivity|].
    pose proof (streamTexts_generationInfo texts st) as Hst.
    destruct (streamTexts streamingFunc texts st) as [st1 [err|]]; simpl in *;
      [exact Hst|].
    by rewrite dispatchToolUses_generationInfo.
  - simpl. by destruct (handleToolEvent_frame rt l
      {| Type_ := ToolEventResult; ToolName := "";
         ToolID := getStringField payload "tool_use_id"; Input := None;
         Output := getStringField payload "content";
         Timestamp := time_Now rt (ticks st) |} streamingFunc (tick st)) as [-> _].
  - subst msgType. exfalso. apply Hty.
    destruct (payload !! "type") as [[| | |s| |]|]; simpl in Emt; try discriminate.
    by inversion Emt.
Qed.

Lemma classify_result payload st :
  payload !! "type" = Some (AStr "result") ->
  classify rt l streamingFunc payload st
  = (set_generationInfo (mergeResultInfo (generationInfo st) payload) st, None).
Proof. intros Hty. unfold classify. by rewrite Hty. Qed.

Lemma scanLoop_keeps_field from to rest :
  (from, to) ∈ resultFields ->
  Forall (keepsField rt from) rest ->
  forall st v,
    generationInfo st ≫= (.!! to) = Some v ->
    generationInfo (scanLoop rt l streamingFunc rest st).1 ≫= (.!! to) = Some v.
Proof.
  intros Hin Hall. induction Hall as [|text rest Hkeep _ IH]; intros st v Hv;
    simpl; [exact Hv|].
  destruct (streq (strings.TrimSpace text) ""); [by apply IH|].
  destruct (json_Unmarshal rt (strings.TrimSpace text)) as [cause|payload] eqn:Hjson;
    [exact Hv|].
  destruct (is_result_dec payload) as [Hty|Hty].
  - rewrite classify_result by exact Hty. apply IH. simpl.
    rewrite (mergeResultInfo_lookup _ _ from to Hin), (Hkeep payload Hjson Hty).
    destruct (generationInfo st) as [g|]; [exact Hv | discriminate].
  - pose proof (classify_generationInfo payload st Hty) as Hframe.
    destruct (classify rt l streamingFunc payload st) as [st1 [err|]];
      simpl in *; [by rewrite Hframe | apply IH; by rewrite Hframe].
Qed.

End GenerationInfo.

(** C6: a stream of one assistant line whose content is
    [[{"type":"text","text":"hi"}]] followed by one result line carrying
    [total_cost_usd] yields the text ["hi"], no error, and a generation info
    holding that very value under [TotalCostUSD]. For each of the four
    merged fields, once a result line carrying the field has been read, the
    value it carried is the one retained as long as no later result line
    carries the field: the last one observed wins. *)
Theorem C6_text_then_result
    (rt : Runtime) (l : LLM) (streamingFunc : option StreamingFunc)
    (stdout : Reader) (text1 text2 : string)
    (payload1 payload2 message : gmap string any) (cost : any) :
  lines (stdout (MaxBufferSize (opts l))) = [text1; text2] ->
  Err (stdout (MaxBufferSize (opts l))) = None ->
  strings.TrimSpace text1 <> "" ->
  json_Unmarshal rt (strings.TrimSpace text1) = inr payload1 ->
  payload1 !! "type" = Some (AStr "assistant") ->
  payload1 !! "message" = Some (AMap message) ->
  message !! "content" = Some (AList [textBlock (AStr "hi")]) ->
  strings.TrimSpace text2 <> "" ->
  json_Unmarshal rt (strings.TrimSpace text2) = inr payload2 ->
  payload2 !! "type" = Some (AStr "result") ->
  payload2 !! "total_cost_usd" = Some cost ->
  (forall f, streamingFunc = Some f -> f [] "hi" = None) ->
  (exists info,
     readStream rt l stdout streamingFunc = ("hi", Some info, None)
     /\ info !! "TotalCostUSD" = Some cost)
  /\ (forall from to text payload v rest st,
        (from, to) ∈ resultFields ->
        strings.TrimSpace text <> "" ->
        json_Unmarshal rt (strings.TrimSpace text) = inr payload ->
        payload !! "type" = Some (AStr "result") ->
        payload !! from = Some v ->
        Forall (keepsField rt from) rest ->
        generationInfo (scanLoop rt l streamingFunc (text :: rest) st).1
          ≫= (.!! to) = Some v).
Proof.
  intros Hlines Herr Hline1 Hjson1 Hty1 Hmsg Hcontent Hline2 Hjson2 Hty2 Hcost Hcb.
  split.
  - exists (mergeResultInfo None payload2). split.
    + unfold readStream, readStream_run. rewrite Hlines, Herr.
      rewrite (scanLoop_decoded _ _ _ _ _ payload1) by done.
      assert (Hfirst : classify rt l streamingFunc payload1 initState
                = (WriteString "hi"
                     (match streamingFunc with
                      | Some _ => record (CallStreamingFunc "hi") initState
                      | None => initState
                      end), None)).
      { unfold classify. rewrite Hty1. simpl.
        rewrite (extractAssistantContent_list _ _ _ Hmsg Hcontent).
        change (textsOf [textBlock (AStr "hi")]) with ["hi"].
        change (toolUsesOf [textBlock (AStr "hi")]) with (@nil toolUseInfo).
        simpl. destruct streamingFunc as [f|]; [|reflexivity].
        unfold callStreamingFunc. simpl. by rewrite (Hcb f eq_refl). }
      rewrite Hfirst.
      rewrite (scanLoop_decoded _ _ _ _ _ payload2) by done.
      rewrite classify_result by done.
      by destruct streamingFunc.
    + rewrite (mergeResultInfo_lookup _ _ "total_cost_usd")
        by (unfold resultFields; set_solver).
      by rewrite Hcost.
  - intros from to text payload v rest st Hin Hline Hjson Hty Hv Hkeep.
    rewrite (scanLoop_decoded _ _ _ _ _ payload) by done.
    rewrite classify_result by done.
    apply (scanLoop_keeps_field _ _ _ from to); [done | done |].
    simpl. rewrite (mergeResultInfo_lookup _ _ from to Hin). by rewrite Hv.
Qed.

Lemma C6_witness :
  exists info,
    readStream (testRuntime (decodeTwo "A" hiLine "R" (costLine cost001)) [])
      (textModeClient None) (Stdout (quietProcess ["A"; "R"])) (Some accept)
    = ("hi", Some info, None)
    /\ info !! "TotalCostUSD" = Some (ANum cost001).
Proof.
  apply (C6_text_then_result
    (testRuntime (decodeTwo "A" hiLine "R" (costLine cost001)) [])
    (textModeClient None) (Some accept) (Stdout (quietProcess ["A"; "R"]))
    "A" "R" hiLine (costLine cost001)
    {[ "content" := AList [textBlock (AStr "hi")] ]} (ANum cost001));
    try reflexivity.
  - vm_compute. discriminate.
  - vm_compute. discriminate.
  - intros f Hf. inversion Hf. reflexivity.
Defined.

Example C6_run :
  readStream (testRuntime (decodeTwo "A" hiLine "R" (costLine cost001)) [])
    (textModeClient None) (Stdout (quietProcess ["A"; "R"])) (Some accept)
  = ("hi", Some {[ "TotalCostUSD" := ANum cost001 ]}, None).
Proof. vm_compute. reflexivity. Qed.

(** ** Properties: the order of effects on an assistant line *)

Section AssistantLine.

Context (rt : Runtime) (l : LLM) (streamingFunc : option StreamingFunc).

Lemma streamTexts_accepts texts : forall st,
  accepts streamingFunc texts ->
  streamTexts streamingFunc texts st
  = ({| builder := builder st +:+ String.concat "" texts;
        generationInfo := generationInfo st;
        trace := trace st ++ streamEffects streamingFunc texts;
        ticks := ticks st |}, None).
Proof.
  unfold streamEffects.
  induction texts as [|text rest IH]; intros st Hacc.
  - simpl. destruct st, streamingFunc; simpl; by rewrite append_empty_r, app_nil_r.
  - assert (Hrest : accepts streamingFunc rest).
    { intros f history t Hf Hin. apply (Hacc f history t Hf). by right. }
    assert (Hcat : forall b, (b +:+ text) +:+ String.concat "" rest
                             = b +:+ String.concat "" (text :: rest)).
    { intros b. rewrite append_assoc. f_equal.
      destruct rest; [by rewrite append_empty_r | reflexivity]. }
    simpl streamTexts. destruct streamingFunc as [f|] eqn:Hsf.
    + unfold callStreamingFunc.
      rewrite (Hacc f (trace st) text eq_refl) by by left.
      rewrite IH by exact Hrest. simpl.
      by rewrite Hcat, <- app_assoc.
    + rewrite IH by exact Hrest. simpl. by rewrite Hcat.
Qed.

Lemma dispatchToolUses_effects toolUses : forall st,
  let events := toolUseEvents rt (ticks st) toolUses in
  trace (dispatchToolUses rt l streamingFunc toolUses st)
  = trace st ++ flat_map (toolEffects rt l streamingFunc) events
  /\ builder (dispatchToolUses rt l streamingFunc toolUses st)
     = builder st +:+ String.concat "" (map (toolText rt l) events).
Proof.
  induction toolUses as [|tu rest IH]; intros st; simpl.
  - by rewrite app_nil_r, append_empty_r.
  - destruct (IH (handleToolEvent rt l (toolUseEvent rt tu st) streamingFunc
                    (tick st))) as [Htr Hb].
    destruct (handleToolEvent_frame rt l (toolUseEvent rt tu st) streamingFunc
                (tick st)) as [_ Hticks].
    rewrite Hticks in Htr, Hb. simpl in Htr, Hb.
    rewrite Htr, Hb, handleToolEvent_trace, handleToolEvent_builder. simpl.
    split; [by rewrite <- app_assoc|].
    rewrite append_assoc. f_equal. unfold toolUseEvent.
    destruct (map _ (toolUseEvents _ _ rest)); [by rewrite append_empty_r | reflexivity].
Qed.

End AssistantLine.

(** C1, as stated, fails: on an assistant line whose content is a
    [tool_use] block followed by a text block, the text block is streamed
    before the tool-requested event is dispatched, whereas handling the
    blocks in encounter order dispatches the event first. *)
Lemma C1_tool_use_before_text_is_dispatched_after :
  let rt := testRuntime noDecode [] in
  let l := textModeClient (Some 7%nat) in
  let content := [toolUseBlock "t1" "Read"; textBlock (AStr "hi")] in
  trace (classify rt l (Some accept) (assistantLine (AList content)) initState).1
  = [CallStreamingFunc "hi"; CallToolEventHook 7%nat readRequested]
  /\ trace (spec_blocksInOrder rt l (Some accept) content initState).1
     = [CallToolEventHook 7%nat readRequested; CallStreamingFunc "hi"]
  /\ trace (classify rt l (Some accept) (assistantLine (AList content)) initState).1
     <> trace (spec_blocksInOrder rt l (Some accept) content initState).1.
Proof.
  split; [vm_compute; reflexivity|].
  split; [vm_compute; reflexivity|].
  vm_compute. discriminate.
Qed.

(** C1, amended: on an assistant line whose content is a list, the text
    blocks are handled first, in the order they have in the list, and the
    [tool_use] blocks after them, in the order they have in the list. When
    the callback accepts the text blocks, the line is processed without
    error, the effects added to the trace are one callback call per text
    block followed by the effects of each tool-requested event, and the
    output grows by the texts followed by the tool summaries. *)
Theorem C1_texts_then_tool_uses
    (rt : Runtime) (l : LLM) (streamingFunc : option StreamingFunc)
    (payload message : gmap string any) (blocks : list any) (st : StreamState) :
  payload !! "type" = Some (AStr "assistant") ->
  payload !! "message" = Some (AMap message) ->
  message !! "content" = Some (AList blocks) ->
  classify rt l streamingFunc payload st
  = match streamTexts streamingFunc (textsOf blocks) st with
    | (st1, Some err) => (st1, Some err)
    | (st1, None) =>
        (dispatchToolUses rt l streamingFunc (toolUsesOf blocks) st1, None)
    end
  /\ (accepts streamingFunc (textsOf blocks) ->
      exists st',
        classify rt l streamingFunc payload st = (st', None)
        /\ (let events := toolUseEvents rt (ticks st) (toolUsesOf blocks) in
            trace st'
            = trace st ++ streamEffects streamingFunc (textsOf blocks)
                ++ flat_map (toolEffects rt l streamingFunc) events
            /\ builder st'
               = (builder st +:+ String.concat "" (textsOf blocks))
                   +:+ String.concat "" (map (toolText rt l) events))).
Proof.
  intros Hty Hmsg Hcontent.
  assert (Hrun : classify rt l streamingFunc payload st
    = match streamTexts streamingFunc (textsOf blocks) st with
      | (st1, Some err) => (st1, Some err)
      | (st1, None) =>
          (dispatchToolUses rt l streamingFunc (toolUsesOf blocks) st1, None)
      end).
  { unfold classify. rewrite Hty. simpl.
    by rewrite (extractAssistantContent_list _ _ _ Hmsg Hcontent). }
  split; [exact Hrun|].
  intros Hacc. rewrite Hrun, (streamTexts_accepts _ _ _ Hacc).
  eexists. split; [reflexivity|].
  destruct (dispatchToolUses_effects rt l streamingFunc (toolUsesOf blocks)
    {| builder := builder st +:+ String.concat "" (textsOf blocks);
       generationInfo := generationInfo st;
       trace := trace st ++ streamEffects streamingFunc (textsOf blocks);
       ticks := ticks st |}) as [Htr Hb].
  simpl in Htr, Hb. simpl. rewrite Htr, Hb. by rewrite <- app_assoc.
Qed.

Lemma C1_witness :
  exists st',
    classify (testRuntime noDecode []) (textModeClient (Some 7%nat)) (Some accept)
      (assistantLine (AList [toolUseBlock "t1" "Read"; textBlock (AStr "hi")]))
      initState = (st', None)
    /\ trace st' = [CallStreamingFunc "hi"; CallToolEventHook 7%nat readRequested].
Proof.
  destruct (C1_texts_then_tool_uses (testRuntime noDecode [])
    (textModeClient (Some 7%nat)) (Some accept)
    (assistantLine (AList [toolUseBlock "t1" "Read"; textBlock (AStr "hi")]))
    {[ "content" := AList [toolUseBlock "t1" "Read"; textBlock (AStr "hi")] ]}
    [toolUseBlock "t1" "Read"; textBlock (AStr "hi")] initState
    eq_refl eq_refl eq_refl) as [_ Hacc].
  destruct Hacc as (st' & Hrun & Htrace & _).
  { intros f history text Hf _. inversion Hf. reflexivity. }
  exists st'. split; [exact Hrun|]. rewrite Htrace. reflexivity.
Defined.

(** ** Properties: sorting the extra-argument keys *)

Lemma string_le_trans : Transitive string_le.
Proof.
  unfold string_le, String.leb. intros a.
  induction a as [|x a IH]; intros [|y b] [|z c]; simpl; try done.
  unfold Ascii.compare.
  destruct (N.compare_spec (N_of_ascii x) (N_of_ascii y)) as [Hxy|Hxy|Hxy];
    destruct (N.compare_spec (N_of_ascii y) (N_of_ascii z)) as [Hyz|Hyz|Hyz];
    destruct (N.compare_spec (N_of_ascii x) (N_of_ascii z)) as [Hxz|Hxz|Hxz];
    try done; try lia.
  apply IH.
Qed.

Lemma string_le_total : Total string_le.
Proof. intros a b. apply String.leb_total. Qed.

Lemma string_le_antisym : AntiSymm (=) string_le.
Proof. intros a b. apply String.leb_antisym. Qed.

Lemma sort_Strings_sorted keys : StronglySorted string_le (sort_Strings keys).
Proof.
  apply StronglySorted_merge_sort;
    [exact string_le_trans | exact string_le_total].
Qed.

Lemma sort_Strings_perm keys : sort_Strings keys ≡ₚ keys.
Proof. apply merge_sort_Permutation. Qed.

(** Sorting forgets the order the keys came in. *)
Lemma sort_Strings_unique keys1 keys2 :
  keys1 ≡ₚ keys2 -> sort_Strings keys1 = sort_Strings keys2.
Proof.
  intros Hperm.
  apply (@StronglySorted_unique _ string_le string_le_antisym);
    try apply sort_Strings_sorted.
  by rewrite !sort_Strings_perm.
Qed.

Lemma fold_appendExtraArg extraArgs keys : forall args,
  fold_left (appendExtraArg extraArgs) keys args
  = args ++ flat_map (extraFlag extraArgs) keys.
Proof.
  induction keys as [|key rest IH]; intros args; simpl.
  - by rewrite app_nil_r.
  - rewrite IH. unfold appendExtraArg, extraFlag.
    destruct (streq _ ""); by rewrite <- app_assoc.
Qed.

Lemma appendExtraArgs_sorted rt extraArgs args :
  range_visits_keys rt ->
  appendExtraArgs rt extraArgs args
  = args ++ flat_map (extraFlag (default ∅ extraArgs))
              (sort_Strings (map_to_list (default ∅ extraArgs)).*1).
Proof.
  intros Hrange. unfold appendExtraArgs.
  set (m := default ∅ extraArgs).
  rewrite <- (sort_Strings_unique _ _ (Hrange m)).
  case_bool_decide as Hsize; [apply fold_appendExtraArg|].
  assert (Hempty : m = ∅) by (apply map_size_empty_inv; lia).
  assert (Hnil : map_range rt m = []).
  { apply Permutation_nil_r. rewrite (Hrange m), Hempty.
    by rewrite map_to_list_empty. }
  rewrite Hnil. by rewrite app_nil_r.
Qed.

Lemma testRuntime_range decode out : range_visits_keys (testRuntime decode out).
Proof. intros m. reflexivity. Qed.

(** C8: whatever order the map is iterated in, the extra flags are emitted
    by increasing key (byte-wise lexicographic order), each key of the map
    once, a key with an empty value as a bare flag and any other key as the
    flag followed by its value; two iteration orders give the same argument
    vector; and extra args [{"z":"1","a":""}] give [--a --z 1]. *)
Theorem C8_extra_args_sorted
    (rt rt' : Runtime) (l : LLM) (prompt systemPrompt : string)
    (args : list string) :
  range_visits_keys rt ->
  range_visits_keys rt' ->
  let m := default ∅ (ExtraArgs (opts l)) in
  (exists keys,
     appendExtraArgs rt (ExtraArgs (opts l)) args
     = args ++ flat_map (extraFlag m) keys
     /\ keys ≡ₚ (map_to_list m).*1
     /\ NoDup keys
     /\ (forall key, key ∈ keys <-> is_Some (m !! key))
     /\ StronglySorted string_le keys)
  /\ (forall key,
        (m !! key = Some "" -> extraFlag m key = ["--" +:+ key])
        /\ (forall val, m !! key = Some val -> val <> "" ->
            extraFlag m key = ["--" +:+ key; val]))
  /\ appendExtraArgs rt' (ExtraArgs (opts l)) args
     = appendExtraArgs rt (ExtraArgs (opts l)) args
  /\ buildCommand_args rt' l prompt systemPrompt
     = buildCommand_args rt l prompt systemPrompt
  /\ (ExtraArgs (opts l) = Some {[ "z" := "1"; "a" := "" ]} ->
      appendExtraArgs rt (ExtraArgs (opts l)) args = args ++ ["--a"; "--z"; "1"]).
Proof.
  intros Hrange Hrange' m.
  assert (Hsame : forall args0,
    appendExtraArgs rt' (ExtraArgs (opts l)) args0
    = appendExtraArgs rt (ExtraArgs (opts l)) args0).
  { intros args0. by rewrite !appendExtraArgs_sorted. }
  split; [|split; [|split; [|split]]].
  - exists (sort_Strings (map_to_list m).*1).
    split; [by apply appendExtraArgs_sorted|].
    split; [apply sort_Strings_perm|].
    split; [rewrite sort_Strings_perm; apply NoDup_fst_map_to_list|].
    split; [|apply sort_Strings_sorted].
    intros key. rewrite sort_Strings_perm, list_elem_of_fmap. split.
    + intros [[k v] [-> Hin]]. apply elem_of_map_to_list in Hin. by exists v.
    + intros [v Hv]. exists (key, v). split; [done|].
      by apply elem_of_map_to_list.
  - intros key. unfold extraFlag. split.
    + by intros ->.
    + intros val -> Hval. simpl. unfold streq.
      by rewrite bool_decide_eq_false_2.
  - apply Hsame.
  - unfold buildCommand_args. by rewrite Hsame.
  - intros Hextra. rewrite appendExtraArgs_sorted by done.
    subst m. rewrite Hextra. f_equal.
Qed.

Lemma reverseRange_visits rt :
  range_visits_keys rt -> range_visits_keys (reverseRange rt).
Proof. intros Hrange m. simpl. by rewrite reverse_Permutation. Qed.

Lemma C8_witness :
  appendExtraArgs (reverseRange (testRuntime noDecode []))
    (ExtraArgs (opts (extraArgsClient {[ "z" := "1"; "a" := "" ]}))) []
  = ["--a"; "--z"; "1"].
Proof.
  destruct (C8_extra_args_sorted
    (reverseRange (testRuntime noDecode [])) (testRuntime noDecode [])
    (extraArgsClient {[ "z" := "1"; "a" := "" ]}) "hello" "" [])
    as (_ & _ & _ & _ & Hexample).
  - apply reverseRange_visits, testRuntime_range.
  - apply testRuntime_range.
  - apply Hexample. reflexivity.
Defined.

(** ** Properties: the argument vector *)

Example countPair_twice :
  countPair "--tools" "a,b" ["--tools"; "a,b"; "--model"; "--tools"; "a,b"] = 2%nat.
Proof. reflexivity. Qed.

Lemma countPair_cons2 flag value a b rest :
  countPair flag value (a :: b :: rest)
  = ((if String.eqb a flag && String.eqb b value then 1 else 0)
     + countPair flag value (b :: rest))%nat.
Proof. reflexivity. Qed.

Lemma countPair_app_cons flag value xs y ys :
  countPair flag value (xs ++ y :: ys)
  = (countPair flag value (xs ++ [y]) + countPair flag value (y :: ys))%nat.
Proof.
  induction xs as [|x xs IH]; [reflexivity|].
  simpl. rewrite IH. destruct xs; simpl; lia.
Qed.

Lemma countPair_snoc_other flag value xs y :
  y <> value -> countPair flag value (xs ++ [y]) = countPair flag value xs.
Proof.
  intros Hy. apply String.eqb_neq in Hy.
  induction xs as [|x xs IH]; [reflexivity|].
  simpl. rewrite IH. destruct xs as [|x' xs]; simpl; [|reflexivity].
  by rewrite Hy, andb_false_r.
Qed.

Lemma countPair_hit flag value rest :
  countPair flag value (flag :: value :: rest)
  = S (countPair flag value (value :: rest)).
Proof. by rewrite countPair_cons2, !String.eqb_refl. Qed.

Lemma countPair_skip_flag flag value a b rest :
  a <> flag ->
  countPair flag value (a :: b :: rest) = countPair flag value (b :: rest).
Proof.
  intros Ha. apply String.eqb_neq in Ha. by rewrite countPair_cons2, Ha.
Qed.

Lemma countPair_skip_value flag value a b rest :
  b <> value ->
  countPair flag value (a :: b :: rest) = countPair flag value (b :: rest).
Proof.
  intros Hb. apply String.eqb_neq in Hb.
  by rewrite countPair_cons2, Hb, andb_false_r.
Qed.

Lemma countPair_one flag value a : countPair flag value [a] = 0%nat.
Proof. reflexivity. Qed.

(** Counts the occurrences of a pair along a list whose spine is known. *)
Ltac count_pairs :=
  repeat first
    [ rewrite countPair_hit
    | rewrite countPair_skip_flag by discriminate
    | rewrite countPair_skip_value by discriminate
    | rewrite countPair_one ].

Section ExtraFlags.

Context (extraArgs : gmap string string) (key value : string).

Hypothesis value_not_flag : forall k, "--" +:+ k <> value.
Hypothesis not_configured : extraArgs !! key <> Some value.

(** The extra flags never add an occurrence of [--key value]. *)
Lemma countPair_extraFlags keys : forall y,
  y <> value ->
  countPair ("--" +:+ key) value (flat_map (extraFlag extraArgs) keys ++ [y])
  = 0%nat.
Proof.
  induction keys as [|k rest IH]; intros y Hy; [reflexivity|].
  assert (Hhd : exists r tail,
            flat_map (extraFlag extraArgs) rest ++ [y] = r :: tail /\ r <> value).
  { destruct rest as [|k' rest']; simpl; [by eauto|].
    unfold extraFlag at 1. destruct (streq _ ""); simpl; eauto. }
  destruct Hhd as (r & tail & Hrest & Hr).
  specialize (IH y Hy). simpl. rewrite <- app_assoc.
  rewrite Hrest in *. apply String.eqb_neq in Hr.
  unfold extraFlag at 1. unfold streq.
  case_bool_decide as Hval; cbn [app]; rewrite !countPair_cons2, IH, Hr;
    rewrite ?andb_false_r; [reflexivity|].
  destruct (String.eqb_spec ("--" +:+ k) ("--" +:+ key)) as [Hk|Hk];
    [|reflexivity].
  apply (String.app_inj "--") in Hk. subst k.
  destruct (String.eqb_spec (default "" (extraArgs !! key)) value) as [Hv|Hv];
    [|reflexivity].
  exfalso. apply not_configured.
  destruct (extraArgs !! key) as [v|]; simpl in *; [by subst | done].
Qed.

End ExtraFlags.

Section ArgumentVector.

Context (rt : Runtime) (l : LLM) (prompt systemPrompt : string).

Lemma appendExtraArgs_flags extraArgs args :
  exists keys,
    appendExtraArgs rt extraArgs args
    = args ++ flat_map (extraFlag (default ∅ extraArgs)) keys.
Proof.
  unfold appendExtraArgs. case_bool_decide.
  - eexists. apply fold_appendExtraArg.
  - exists []. simpl. by rewrite app_nil_r.
Qed.

Lemma buildCommand_args_shape :
  exists keys,
    buildCommand_args rt l prompt systemPrompt
    = fixedArgs l systemPrompt
      ++ flat_map (extraFlag (default ∅ (ExtraArgs (opts l)))) keys
      ++ ["--print"; "--"; prompt].
Proof.
  destruct (appendExtraArgs_flags (ExtraArgs (opts l)) (fixedArgs l systemPrompt))
    as [keys Hk].
  exists keys. unfold buildCommand_args. fold (fixedArgs l systemPrompt).
  by rewrite Hk, <- app_assoc.
Qed.

(** Occurrences of [--key value] are those of the fixed part, when the
    extra arguments do not configure that very pair. *)
Lemma countPair_buildCommand_args key value :
  key <> "" ->
  (forall k, "--" +:+ k <> value) ->
  default ∅ (ExtraArgs (opts l)) !! key <> Some value ->
  countPair ("--" +:+ key) value (buildCommand_args rt l prompt systemPrompt)
  = countPair ("--" +:+ key) value (fixedArgs l systemPrompt).
Proof.
  intros Hkey Hvalue Hextra.
  destruct buildCommand_args_shape as [keys ->].
  rewrite app_assoc.
  rewrite (countPair_app_cons _ _ _ "--print" ["--"; prompt]).
  rewrite <- app_assoc.
  assert (Hprint : "--print" <> value) by apply (Hvalue "print").
  set (flags := flat_map _ keys).
  assert (Hflags : countPair ("--" +:+ key) value (flags ++ ["--print"]) = 0%nat)
    by by apply countPair_extraFlags.
  assert (Hjoin :
    countPair ("--" +:+ key) value (fixedArgs l systemPrompt ++ flags ++ ["--print"])
    = countPair ("--" +:+ key) value (fixedArgs l systemPrompt)).
  { destruct flags as [|flag flags'] eqn:Hfl.
    - by apply countPair_snoc_other.
    - simpl app. rewrite countPair_app_cons. simpl app in Hflags.
      rewrite Hflags. rewrite countPair_snoc_other; [apply Nat.add_0_r|].
      subst flags. destruct keys as [|k keys']; [discriminate|].
      simpl in Hfl. unfold extraFlag in Hfl at 1.
      destruct (streq _ ""); inversion Hfl; apply Hvalue. }
  rewrite Hjoin. rewrite !countPair_cons2.
  assert (Hdash : String.eqb "--" value = false)
    by apply String.eqb_neq, (Hvalue "").
  assert (Hflag : String.eqb "--" ("--" +:+ key) = false).
  { apply String.eqb_neq. intros Heq.
    apply (String.app_inj "--" "" key) in Heq. by apply Hkey. }
  rewrite Hdash, Hflag, andb_false_r. simpl. apply Nat.add_0_r.
Qed.

End ArgumentVector.

Lemma appendIf_optFlags cond flags args :
  appendIf cond flags args = args ++ optFlags cond flags.
Proof. destruct cond; simpl; [reflexivity | by rewrite app_nil_r]. Qed.

Lemma fixedArgs_parts l systemPrompt :
  fixedArgs l systemPrompt
  = ["--output-format"; "stream-json"; "--verbose"]
    ++ optFlags (negb (streq systemPrompt "")) ["--system-prompt"; systemPrompt]
    ++ optFlags (nonEmpty (Tools (opts l)))
         ["--tools"; strings.Join (Tools (opts l)) ","]
    ++ optFlags (nonEmpty (AllowedTools (opts l)))
         ["--allowedTools"; strings.Join (AllowedTools (opts l)) ","]
    ++ optFlags (nonEmpty (DisallowedTools (opts l)))
         ["--disallowedTools"; strings.Join (DisallowedTools (opts l)) ","]
    ++ optFlags (negb (streq (Model (opts l)) "")) ["--model"; Model (opts l)]
    ++ optFlags (negb (streq (PermissionMode (opts l)) ""))
         ["--permission-mode"; PermissionMode (opts l)].
Proof.
  unfold fixedArgs. cbv zeta. rewrite !appendIf_optFlags.
  by rewrite <- !app_assoc.
Qed.

(** C7, as stated, fails: a configuration with tools [a,b], allowed tools
    [x], model [m] and the extra argument [tools] set to ["a,b"] yields a
    vector in which [--tools a,b] occurs twice. *)
Lemma C7_extra_args_can_repeat_a_flag :
  let args := buildCommand_args (testRuntime noDecode [])
                (abxmClient {[ "tools" := "a,b" ]}) "hello" "" in
  args = ["--output-format"; "stream-json"; "--verbose"; "--tools"; "a,b";
          "--allowedTools"; "x"; "--model"; "m";
          "--permission-mode"; "bypassPermissions"; "--tools"; "a,b";
          "--print"; "--"; "hello"]
  /\ countPair "--tools" "a,b" args = 2%nat
  /\ countPair "--tools" "a,b" args <> 1%nat.
Proof.
  split; [vm_compute; reflexivity|].
  split; [vm_compute; reflexivity | vm_compute; discriminate].
Qed.

(** C7, amended: for every configuration with tools [a,b], allowed tools
    [x] and model [m] whose extra arguments do not set [tools] to ["a,b"],
    [allowedTools] to ["x"] or [model] to ["m"], the argument vector
    contains [--tools a,b], [--allowedTools x] and [--model m] in this
    order, each exactly once. For every configuration and prompt the vector
    ends with [--print], [--] and the prompt. *)
Theorem C7_flags_in_order_once :
  (forall (rt : Runtime) (l : LLM) (prompt systemPrompt : string),
     Tools (opts l) = ["a"; "b"] ->
     AllowedTools (opts l) = ["x"] ->
     Model (opts l) = "m" ->
     default ∅ (ExtraArgs (opts l)) !! "tools" <> Some "a,b" ->
     default ∅ (ExtraArgs (opts l)) !! "allowedTools" <> Some "x" ->
     default ∅ (ExtraArgs (opts l)) !! "model" <> Some "m" ->
     let args := buildCommand_args rt l prompt systemPrompt in
     (exists pre mid1 mid2 post,
        args = pre ++ ["--tools"; "a,b"] ++ mid1 ++ ["--allowedTools"; "x"]
                 ++ mid2 ++ ["--model"; "m"] ++ post)
     /\ countPair "--tools" "a,b" args = 1%nat
     /\ countPair "--allowedTools" "x" args = 1%nat
     /\ countPair "--model" "m" args = 1%nat)
  /\ (forall (rt : Runtime) (l : LLM) (prompt systemPrompt : string),
        exists front,
          buildCommand_args rt l prompt systemPrompt
          = front ++ ["--print"; "--"; prompt]).
Proof.
  split.
  - intros rt l prompt systemPrompt Htools Hallowed Hmodel Hx1 Hx2 Hx3 args.
    set (optS := optFlags (negb (streq systemPrompt ""))
                   ["--system-prompt"; systemPrompt]).
    set (optD := optFlags (nonEmpty (DisallowedTools (opts l)))
                   ["--disallowedTools";
                    strings.Join (DisallowedTools (opts l)) ","]).
    set (optP := optFlags (negb (streq (PermissionMode (opts l)) ""))
                   ["--permission-mode"; PermissionMode (opts l)]).
    assert (Hfixed : fixedArgs l systemPrompt
      = ["--output-format"; "stream-json"; "--verbose"] ++ optS
        ++ ["--tools"; "a,b"] ++ ["--allowedTools"; "x"] ++ optD
        ++ ["--model"; "m"] ++ optP).
    { rewrite fixedArgs_parts, Htools, Hallowed, Hmodel. reflexivity. }
    split; [|split; [|split]].
    + destruct (buildCommand_args_shape rt l prompt systemPrompt) as [keys Hshape].
      subst args. rewrite Hshape, Hfixed.
      exists (["--output-format"; "stream-json"; "--verbose"] ++ optS), [], optD,
        (optP ++ flat_map (extraFlag (default ∅ (ExtraArgs (opts l)))) keys
           ++ ["--print"; "--"; prompt]).
      rewrite <- !app_assoc. reflexivity.
    + subst args.
      change "--tools" with ("--" +:+ "tools").
      rewrite (countPair_buildCommand_args rt l prompt systemPrompt "tools" "a,b")
        by (try done; intros k; discriminate).
      change ("--" +:+ "tools") with "--tools".
      rewrite Hfixed. subst optS optD optP.
      destruct (streq systemPrompt ""), (nonEmpty (DisallowedTools (opts l))),
        (streq (PermissionMode (opts l)) ""); cbn [negb optFlags app];
        count_pairs; reflexivity.
    + subst args.
      change "--allowedTools" with ("--" +:+ "allowedTools").
      rewrite (countPair_buildCommand_args rt l prompt systemPrompt "allowedTools" "x")
        by (try done; intros k; discriminate).
      change ("--" +:+ "allowedTools") with "--allowedTools".
      rewrite Hfixed. subst optS optD optP.
      destruct (streq systemPrompt ""), (nonEmpty (DisallowedTools (opts l))),
        (streq (PermissionMode (opts l)) ""); cbn [negb optFlags app];
        count_pairs; reflexivity.
    + subst args.
      change "--model" with ("--" +:+ "model").
      rewrite (countPair_buildCommand_args rt l prompt systemPrompt "model" "m")
        by (try done; intros k; discriminate).
      change ("--" +:+ "model") with "--model".
      rewrite Hfixed. subst optS optD optP.
      destruct (streq systemPrompt ""), (nonEmpty (DisallowedTools (opts l))),
        (streq (PermissionMode (opts l)) ""); cbn [negb optFlags app];
        count_pairs; reflexivity.
  - intros rt l prompt systemPrompt. unfold buildCommand_args. eauto.
Qed.

Lemma C7_witness :
  countPair "--tools" "a,b"
    (buildCommand_args (testRuntime noDecode [])
       (abxmClient {[ "verbose" := ""; "tools" := "c" ]}) "-hello" "be brief")
  = 1%nat
  /\ exists front,
       buildCommand_args (testRuntime noDecode [])
         (abxmClient {[ "verbose" := ""; "tools" := "c" ]}) "-hello" "be brief"
       = front ++ ["--print"; "--"; "-hello"].
Proof.
  destruct C7_flags_in_order_once as [Honce Hend].
  split.
  - apply (Honce (testRuntime noDecode [])
             (abxmClient {[ "verbose" := ""; "tools" := "c" ]})
             "-hello" "be brief"); try reflexivity; vm_compute; discriminate.
  - apply Hend.
Defined.

(** * Further properties *)

(** ** Rendering messages *)

Lemma concat_cons_fold sep ts : forall b t,
  b +:+ String.concat sep (t :: ts)
  = fold_left (fun acc x => (acc +:+ sep) +:+ x) ts (b +:+ t).
Proof.
  induction ts as [|x ts IH]; intros b t; [reflexivity|].
  change (String.concat sep (t :: x :: ts))
    with (t +:+ sep +:+ String.concat sep (x :: ts)).
  simpl fold_left. rewrite <- IH. by rewrite !append_assoc.
Qed.

Lemma messageToText_loop_render parts : forall i builder,
  messageToText_loop (S i) parts builder
  = match renderParts parts with
    | inl err => inl err
    | inr ts =>
        inr (fold_left (fun acc x => (acc +:+ strings.LF) +:+ x) ts builder)
    end.
Proof.
  induction parts as [|part rest IH]; intros i builder; [reflexivity|].
  simpl. destruct (partToText part) as [err|t]; [reflexivity|].
  rewrite IH. destruct (renderParts rest) as [err|ts]; reflexivity.
Qed.

(** X1: a message renders to its parts' texts joined by line feeds; if a
    part cannot be rendered, the result is the error of the first such
    part, whatever was rendered before it. *)
Theorem messageToText_joins_parts (msg : llms.MessageContent) :
  messageToText msg
  = match renderParts (llms.Parts msg) with
    | inl err => inl err
    | inr ts => inr (strings.Join ts strings.LF)
    end.
Proof.
  unfold messageToText. destruct (llms.Parts msg) as [|part rest]; [reflexivity|].
  simpl. destruct (partToText part) as [err|t]; [reflexivity|].
  change ("" +:+ t) with t. rewrite messageToText_loop_render.
  destruct (renderParts rest) as [err|ts]; [reflexivity|].
  unfold strings.Join. f_equal. symmetry.
  exact (concat_cons_fold strings.LF ts "" t).
Qed.

(** ** Splitting off the system messages *)



(** X3: the merged system prompt is empty exactly when both the configured
    prompt and the system text of the messages are blank. *)
Theorem mergeSystemPrompt_empty_iff (base extra : string) :
  mergeSystemPrompt base extra = ""
  <-> strings.TrimSpace base = "" /\ strings.TrimSpace extra = "".
Proof.
  unfold mergeSystemPrompt, streq.
  case_bool_decide as Hb; [rewrite Hb; tauto|].
  case_bool_decide as He.
  - split; [done | tauto].
  - split; [|tauto]. intros Hm.
    destruct (strings.TrimSpace base); [done | discriminate].
Qed.

(** ** White space at the ends of a string *)

Lemma bytes_of_bytes bs : strings.bytes (strings.of_bytes bs) = bs.
Proof. apply String.list_ascii_of_string_of_list_ascii. Qed.

Lemma of_bytes_bytes s : strings.of_bytes (strings.bytes s) = s.
Proof. apply String.string_of_list_ascii_of_string. Qed.

Lemma of_bytes_empty bs : strings.of_bytes bs = "" -> bs = [].
Proof. by destruct bs. Qed.

Lemma bytes_app a b : strings.bytes (a +:+ b) = strings.bytes a ++ strings.bytes b.
Proof. induction a as [|c a IH]; [reflexivity | simpl; by f_equal]. Qed.

#[local] Opaque strings.asciiSpace strings.space2 strings.space3.

Lemma trimLeft_stuck bs : headSpace bs = false -> strings.trimLeft bs = bs.
Proof.
  intros Hh. destruct bs as [|b0 t0]; [reflexivity|].
  simpl in *. destruct (strings.asciiSpace b0); [discriminate|].
  destruct t0 as [|b1 t1]; [reflexivity|].
  simpl in *. destruct (strings.space2 b0 b1); [discriminate|].
  destruct t1 as [|b2 t2]; [reflexivity|].
  simpl in *. by rewrite Hh.
Qed.

Lemma headSpace_app xs ys : headSpace xs = true -> headSpace (xs ++ ys) = true.
Proof.
  destruct xs as [|b0 [|b1 [|b2 t2]]]; simpl; [done|..]; intros Hh.
  - rewrite orb_false_r in Hh. by rewrite Hh.
  - rewrite orb_false_r in Hh.
    apply orb_true_iff in Hh as [->|Hh]; [done|].
    rewrite Hh. destruct ys; simpl; by rewrite ?orb_true_r.
  - exact Hh.
Qed.

(** What [trimLeft] returns does not start with white space. *)
Lemma trimLeft_headSpace bs : headSpace (strings.trimLeft bs) = false.
Proof.
  remember (length bs) as n eqn:Hn.
  revert bs Hn. induction (lt_wf n) as [n _ IH]. intros bs ->.
  destruct bs as [|b0 t0]; [reflexivity|].
  simpl strings.trimLeft.
  destruct (strings.asciiSpace b0) eqn:H0;
    [apply (IH (length t0)); simpl; [lia | reflexivity]|].
  destruct t0 as [|b1 t1]; [simpl; by rewrite H0|].
  destruct (strings.space2 b0 b1) eqn:H1;
    [apply (IH (length t1)); simpl; [lia | reflexivity]|].
  destruct t1 as [|b2 t2]; [simpl; by rewrite H0, H1|].
  destruct (strings.space3 b0 b1 b2) eqn:H2;
    [apply (IH (length t2)); simpl; [lia | reflexivity]|].
  simpl. by rewrite H0, H1, H2.
Qed.

(** If trimming on the right leaves nothing, the bytes start with white
    space (or there are none). *)
Lemma trimRightRev_nil rs :
  strings.trimRightRev rs = [] -> rs = [] \/ headSpace (rev rs) = true.
Proof.
  remember (length rs) as n eqn:Hn.
  revert rs Hn. induction (lt_wf n) as [n _ IH]. intros rs -> Hnil.
  destruct rs as [|b0 t0]; [by left|]. right.
  simpl in Hnil.
  destruct (strings.asciiSpace b0) eqn:H0.
  { destruct (IH (length t0) ltac:(simpl; lia) t0 eq_refl Hnil) as [->|Hh].
    - simpl. by rewrite H0.
    - simpl. by apply headSpace_app. }
  destruct t0 as [|b1 t1]; [discriminate|].
  destruct (strings.space2 b1 b0) eqn:H1.
  { destruct (IH (length t1) ltac:(simpl; lia) t1 eq_refl Hnil) as [->|Hh].
    - simpl. by rewrite H1, orb_true_r.
    - simpl. rewrite <- app_assoc. by apply headSpace_app. }
  destruct t1 as [|b2 t2]; [discriminate|].
  destruct (strings.space3 b2 b1 b0) eqn:H2; [|discriminate].
  destruct (IH (length t2) ltac:(simpl; lia) t2 eq_refl Hnil) as [->|Hh].
  - simpl. by rewrite H2, !orb_true_r.
  - simpl. rewrite <- !app_assoc. by apply headSpace_app.
Qed.

(** Trimming on the right only drops bytes at the end. *)
Lemma trimRightRev_suffix rs :
  exists dropped, rs = dropped ++ strings.trimRightRev rs.
Proof.
  remember (length rs) as n eqn:Hn.
  revert rs Hn. induction (lt_wf n) as [n _ IH]. intros rs ->.
  destruct rs as [|b0 t0]; [by exists []|].
  simpl.
  destruct (strings.asciiSpace b0).
  { destruct (IH (length t0) ltac:(simpl; lia) t0 eq_refl) as [d Hd].
    exists (b0 :: d). simpl. by rewrite <- Hd. }
  destruct t0 as [|b1 t1]; [by exists []|].
  destruct (strings.space2 b1 b0).
  { destruct (IH (length t1) ltac:(simpl; lia) t1 eq_refl) as [d Hd].
    exists (b0 :: b1 :: d). simpl. by rewrite <- Hd. }
  destruct t1 as [|b2 t2]; [by exists []|].
  destruct (strings.space3 b2 b1 b0); [|by exists []].
  destruct (IH (length t2) ltac:(simpl; lia) t2 eq_refl) as [d Hd].
  exists (b0 :: b1 :: b2 :: d). simpl. by rewrite <- Hd.
Qed.

(** A trimmed string does not start with white space. *)
Lemma TrimSpace_headSpace s : headSpace (strings.bytes (strings.TrimSpace s)) = false.
Proof.
  unfold strings.TrimSpace. rewrite bytes_of_bytes.
  set (bs := strings.trimLeft (strings.bytes s)).
  destruct (trimRightRev_suffix (rev bs)) as [d Hd].
  assert (Hbs : bs = rev (strings.trimRightRev (rev bs)) ++ rev d).
  { rewrite <- rev_app_distr, <- Hd. by rewrite rev_involutive. }
  destruct (headSpace (rev (strings.trimRightRev (rev bs)))) eqn:Hh; [|reflexivity].
  apply (headSpace_app _ (rev d)) in Hh. rewrite <- Hbs in Hh.
  subst bs. by rewrite trimLeft_headSpace in Hh.
Qed.

(** A non-empty string that does not start with white space is not blank. *)
Lemma TrimSpace_nonblank s :
  s <> "" -> headSpace (strings.bytes s) = false -> strings.TrimSpace s <> "".
Proof.
  intros Hs Hh Hblank. unfold strings.TrimSpace in Hblank.
  rewrite (trimLeft_stuck _ Hh) in Hblank.
  apply of_bytes_empty in Hblank.
  assert (Hnil : strings.trimRightRev (rev (strings.bytes s)) = []).
  { by rewrite <- (rev_involutive (strings.trimRightRev _)), Hblank. }
  apply trimRightRev_nil in Hnil as [Hnil|Hnil].
  - apply Hs. rewrite <- (of_bytes_bytes s).
    by rewrite <- (rev_involutive (strings.bytes s)), Hnil.
  - rewrite rev_involutive in Hnil. congruence.
Qed.

#[local] Transparent strings.asciiSpace strings.space2 strings.space3.

(** ** The prompt *)

Lemma buildPrompt_loop_spec messages : forall parts,
  match buildPrompt_loop messages parts with
  | inr parts' =>
      parts' = parts ++ omap promptPart messages
      /\ Forall (fun msg => exists text, messageToText msg = inr text) messages
  | inl err => exists msg, msg ∈ messages /\ messageToText msg = inl err
  end.
Proof.
  induction messages as [|msg rest IH]; intros parts.
  - simpl. by rewrite app_nil_r.
  - simpl. unfold promptPart at 1.
    destruct (messageToText msg) as [err|text] eqn:Htext.
    { exists msg. split; [by left | done]. }
    cbv zeta. unfold streq.
    case_bool_decide as Hblank.
    + specialize (IH parts).
      destruct (buildPrompt_loop rest parts) as [err|parts'].
      * destruct IH as (m & Hin & Hm). exists m. split; [by right | done].
      * destruct IH as [-> Hall]. split; [done|]. constructor; [eauto | done].
    + case_bool_decide as Hprefix; simpl.
      * specialize (IH (parts ++ [strings.TrimSpace text])).
        destruct (buildPrompt_loop rest (parts ++ [strings.TrimSpace text]))
          as [err|parts'].
        -- destruct IH as (m & Hin & Hm). exists m. split; [by right | done].
        -- destruct IH as [-> Hall]. rewrite <- app_assoc.
           split; [done|]. constructor; [eauto | done].
      * specialize (IH (parts ++ [rolePrefix (llms.Role msg) +:+ ": "
                                  +:+ strings.TrimSpace text])).
        destruct (buildPrompt_loop rest _) as [err|parts'].
        -- destruct IH as (m & Hin & Hm). exists m. split; [by right | done].
        -- destruct IH as [-> Hall]. rewrite <- app_assoc.
           split; [done|]. constructor; [eauto | done].
Qed.

(** X4: the prompt is the parts contributed by the messages, joined by a
    blank line: a message that renders blank contributes nothing, any other
    its trimmed text, behind the label of its role when the role has one.
    When [buildPrompt] fails, the error is that of a message that cannot be
    rendered. *)
Theorem buildPrompt_joins_parts (messages : list llms.MessageContent) :
  match buildPrompt messages with
  | inr prompt =>
      prompt = strings.Join (omap promptPart messages) (strings.LF +:+ strings.LF)
      /\ Forall (fun msg => exists text, messageToText msg = inr text) messages
  | inl err => exists msg, msg ∈ messages /\ messageToText msg = inl err
  end.
Proof.
  unfold buildPrompt. destruct messages as [|msg rest]; [by split|].
  pose proof (buildPrompt_loop_spec (msg :: rest) []) as Hspec.
  destruct (buildPrompt_loop (msg :: rest) []) as [err|parts]; [exact Hspec|].
  destruct Hspec as [-> Hall]. done.
Qed.

Lemma headSpace_app_LF xs ys :
  xs <> [] -> headSpace xs = false ->
  headSpace (xs ++ strings.bytes strings.LF ++ ys) = false.
Proof.
  intros Hne Hh. destruct xs as [|b0 [|b1 [|b2 t2]]]; [done|..]; simpl in *.
  - apply orb_false_elim in Hh as [-> _]. simpl.
    unfold strings.space2, strings.space3.
    destruct (strings.byte_is 194 b0), (strings.byte_is 225 b0),
      (strings.byte_is 226 b0), (strings.byte_is 227 b0), ys; reflexivity.
  - apply orb_false_elim in Hh as [-> Hh].
    apply orb_false_elim in Hh as [-> _]. simpl.
    unfold strings.space3.
    destruct (strings.byte_is 225 b0), (strings.byte_is 226 b0),
      (strings.byte_is 227 b0), (strings.byte_is 154 b1),
      (strings.byte_is 128 b1), (strings.byte_is 129 b1); reflexivity.
  - exact Hh.
Qed.

(** A part of the prompt is not empty and does not start with white space. *)
Lemma promptPart_head msg part :
  promptPart msg = Some part ->
  part <> "" /\ headSpace (strings.bytes part) = false.
Proof.
  unfold promptPart. destruct (messageToText msg) as [err|text]; [done|].
  cbv zeta. unfold streq. case_bool_decide as Hblank; [done|].
  case_bool_decide as Hprefix; intros [= <-].
  - split; [exact Hblank | apply TrimSpace_headSpace].
  - revert Hprefix. unfold rolePrefix, streq.
    repeat case_bool_decide; intros Hprefix; try done; by split.
Qed.

Lemma join_head part parts sep :
  exists tail,
    strings.bytes (strings.Join (part :: parts) (strings.LF +:+ sep))
    = strings.bytes part ++ tail
    /\ (tail = [] \/ exists ys, tail = strings.bytes strings.LF ++ ys).
Proof.
  unfold strings.Join. destruct parts as [|p ps].
  - exists []. split; [by rewrite app_nil_r | by left].
  - change (String.concat (strings.LF +:+ sep) (part :: p :: ps))
      with (part +:+ (strings.LF +:+ sep)
            +:+ String.concat (strings.LF +:+ sep) (p :: ps)).
    rewrite !bytes_app. rewrite <- !app_assoc. eexists. split; [reflexivity|].
    right. eexists. reflexivity.
Qed.

(** X5: when the prompt can be built, it is blank exactly when every
    message renders blank; [GenerateContent] checks this before it starts
    a process. *)
Theorem buildPrompt_blank_iff
    (messages : list llms.MessageContent) (prompt : string) :
  buildPrompt messages = inr prompt ->
  (strings.TrimSpace prompt = "" <-> Forall blank messages).
Proof.
  intros Hbuild. pose proof (buildPrompt_joins_parts messages) as Hspec.
  rewrite Hbuild in Hspec. destruct Hspec as [-> Hall].
  destruct (omap promptPart messages) as [|part parts] eqn:Hparts.
  - split; [intros _ | done].
    clear Hbuild. induction Hall as [|msg rest [text Htext] _ IH];
      [constructor|].
    simpl in Hparts. unfold promptPart in Hparts at 1. rewrite Htext in Hparts.
    cbv zeta in Hparts. unfold streq in Hparts.
    case_bool_decide as Hblank.
    + constructor; [by exists text | by apply IH].
    + by case_bool_decide.
  - assert (Hpart : exists msg, msg ∈ messages /\ promptPart msg = Some part).
    { assert (Hin : part ∈ omap promptPart messages) by (rewrite Hparts; by left).
      apply list_elem_of_omap in Hin as (msg & Hin & Hmsg). eauto. }
    destruct Hpart as (msg & Hin & Hmsg).
    destruct (promptPart_head _ _ Hmsg) as [Hne Hhead].
    assert (Hnonblank :
      strings.TrimSpace (strings.Join (part :: parts) (strings.LF +:+ strings.LF))
      <> "").
    { destruct (join_head part parts strings.LF) as (tail & Hbytes & Htail).
      apply TrimSpace_nonblank.
      - intros Hempty. rewrite Hempty in Hbytes. simpl in Hbytes.
        destruct part; [done | discriminate].
      - rewrite Hbytes. destruct Htail as [->|[ys ->]].
        + by rewrite app_nil_r.
        + apply headSpace_app_LF; [by destruct part | exact Hhead]. }
    split; [done|]. intros Hblank. exfalso.
    rewrite Forall_forall in Hblank.
    destruct (Hblank msg Hin) as (text & Htext & Htrim).
    unfold promptPart in Hmsg. rewrite Htext in Hmsg. cbv zeta in Hmsg.
    unfold streq in Hmsg. by rewrite bool_decide_eq_true_2 in Hmsg.
Qed.

Lemma buildPrompt_blank_iff_witness :
  strings.TrimSpace "User: hi" = "" <-> Forall blank [humanMessage "hi"; humanMessage " "].
Proof.
  apply (buildPrompt_blank_iff [humanMessage "hi"; humanMessage " "] "User: hi").
  reflexivity.
Defined.




(** ** The stream parser, line by line *)

Section StreamLines.

Context (rt : Runtime) (l : LLM) (streamingFunc : option StreamingFunc).

(** X7: lines that are empty or hold only white space do not count: the
    parser does on a stream what it does on the stream without them. *)
Theorem scanLoop_skips_blank_lines (scanned : list string) (st : StreamState) :
  scanLoop rt l streamingFunc scanned st
  = scanLoop rt l streamingFunc
      (filter (fun text => strings.TrimSpace text <> "") scanned) st.
Proof.
  revert st. induction scanned as [|text rest IH]; intros st; [reflexivity|].
  destruct (decide (strings.TrimSpace text = "")) as [Hblank|Hline].
  - rewrite filter_cons_False by (intros Hn; by apply Hn).
    simpl. unfold streq. rewrite bool_decide_eq_true_2 by exact Hblank. apply IH.
  - rewrite filter_cons_True by exact Hline.
    simpl. unfold streq. rewrite bool_decide_eq_false_2 by exact Hline.
    destruct (json_Unmarshal rt (strings.TrimSpace text)) as [err|payload];
      [reflexivity|].
    destruct (classify rt l streamingFunc payload st) as [st' [err|]];
      [reflexivity | apply IH].
Qed.


(** Whatever the outcome, handling text blocks only adds to the output and
    to the trace. *)
Lemma streamTexts_grows texts : forall st,
  exists added calls,
    builder (streamTexts streamingFunc texts st).1 = builder st +:+ added
    /\ trace (streamTexts streamingFunc texts st).1 = trace st ++ calls
    /\ ticks (streamTexts streamingFunc texts st).1 = ticks st
    /\ ((streamTexts streamingFunc texts st).2 = None ->
        added = String.concat "" texts).
Proof.
  induction texts as [|text rest IH]; intros st.
  - exists "", []. simpl. by rewrite append_empty_r, app_nil_r.
  - assert (Hcat : forall added,
      added = String.concat "" rest ->
      text +:+ added = String.concat "" (text :: rest)).
    { intros added ->. destruct rest; [by rewrite append_empty_r | reflexivity]. }
    simpl. destruct streamingFunc as [f|] eqn:Hsf.
    + unfold callStreamingFunc. destruct (f (trace st) text) as [err|] eqn:Hf.
      * exists "", [CallStreamingFunc text]. simpl.
        by rewrite append_empty_r.
      * destruct (IH (WriteString text (record (CallStreamingFunc text) st)))
          as (added & calls & Hb & Ht & Hk & Hok).
        exists (text +:+ added), (CallStreamingFunc text :: calls).
        rewrite Hb, Ht, Hk. simpl. rewrite append_assoc, <- app_assoc.
        repeat split; try done. intros Hnone. by apply Hcat, Hok.
    + destruct (IH (WriteString text st)) as (added & calls & Hb & Ht & Hk & Hok).
      exists (text +:+ added), calls.
      rewrite Hb, Ht, Hk. simpl. rewrite append_assoc.
      repeat split; try done. intros Hnone. by apply Hcat, Hok.
Qed.

Lemma dispatchToolUses_ticks toolUses : forall st,
  ticks (dispatchToolUses rt l streamingFunc toolUses st)
  = (ticks st + length toolUses)%nat.
Proof.
  induction toolUses as [|tu rest IH]; intros st; simpl; [lia|].
  rewrite IH.
  destruct (handleToolEvent_frame rt l (toolUseEvent rt tu st) streamingFunc
              (tick st)) as [_ ->]. simpl. lia.
Qed.

(** One line only adds to the output and to the trace. *)
Lemma classify_grows payload st :
  exists added calls,
    builder (classify rt l streamingFunc payload st).1 = builder st +:+ added
    /\ trace (classify rt l streamingFunc payload st).1 = trace st ++ calls
    /\ (ticks st <= ticks (classify rt l streamingFunc payload st).1)%nat.
Proof.
  unfold classify.
  destruct (assertString (payload !! "type")) as [msgType ok].
  unfold streq. repeat case_bool_decide;
    try (exists "", []; simpl; by rewrite append_empty_r, app_nil_r).
  - destruct (extractAssistantContent payload) as [err|[texts toolUses]];
      [exists "", []; simpl; by rewrite append_empty_r, app_nil_r|].
    destruct (streamTexts_grows texts st) as (added & calls & Hb & Ht & Hk & _).
    destruct (streamTexts streamingFunc texts st) as [st1 [err|]]; simpl in *.
    + exists added, calls. repeat split; try done. lia.
    + destruct (dispatchToolUses_effects rt l streamingFunc toolUses st1)
        as [Ht2 Hb2].
      eexists _, _. rewrite Hb2, Ht2, Hb, Ht, append_assoc, <- app_assoc.
      repeat split; try done. rewrite dispatchToolUses_ticks. lia.
  - simpl. rewrite handleToolEvent_builder, handleToolEvent_trace.
    eexists _, _. repeat split; try done.
    destruct (handleToolEvent_frame rt l
      {| Type_ := ToolEventResult; ToolName := "";
         ToolID := getStringField payload "tool_use_id"; Input := None;
         Output := getStringField payload "content";
         Timestamp := time_Now rt (ticks st) |} streamingFunc (tick st))
      as [_ ->]. simpl. lia.
Qed.

(** X8: the parser never takes back what it has produced: on every
    stream and from every state, with or without an error, the output text
    it ends with starts with the text it had, the trace of callback and
    hook calls starts with the calls already made, and a generation info
    once set stays set. *)
Theorem scanLoop_only_grows (scanned : list string) (st : StreamState) :
  let st' := (scanLoop rt l streamingFunc scanned st).1 in
  (exists added, builder st' = builder st +:+ added)
  /\ (exists calls, trace st' = trace st ++ calls)
  /\ (is_Some (generationInfo st) -> is_Some (generationInfo st')).
Proof.
  revert st. induction scanned as [|text rest IH]; intros st; simpl.
  { split; [exists ""; by rewrite append_empty_r|].
    split; [exists []; by rewrite app_nil_r | done]. }
  assert (Hsame : (exists added, builder st = builder st +:+ added)
                  /\ (exists calls, trace st = trace st ++ calls)
                  /\ (is_Some (generationInfo st) -> is_Some (generationInfo st))).
  { split; [exists ""; by rewrite append_empty_r|].
    split; [exists []; by rewrite app_nil_r | done]. }
  destruct (streq (strings.TrimSpace text) ""); [apply IH|].
  destruct (json_Unmarshal rt (strings.TrimSpace text)) as [err|payload];
    [exact Hsame|].
  destruct (classify_grows payload st) as (added & calls & Hb & Ht & _).
  assert (Hinfo : is_Some (generationInfo st) ->
                  is_Some (generationInfo (classify rt l streamingFunc payload st).1)).
  { destruct (is_result_dec payload) as [Hty|Hty].
    - rewrite classify_result by exact Hty. simpl. eauto.
    - by rewrite classify_generationInfo. }
  destruct (classify rt l streamingFunc payload st) as [st1 [err|]]; simpl in *.
  - split; [eauto|]. split; [eauto | done].
  - destruct (IH st1) as ([added' Hb'] & [calls' Ht'] & Hinfo').
    split; [exists (added +:+ added'); by rewrite Hb', Hb, append_assoc|].
    split; [exists (calls ++ calls'); by rewrite Ht', Ht, app_assoc|].
    intros Hs. by apply Hinfo', Hinfo.
Qed.

End StreamLines.

(** ** The streaming callback *)



(** ** The aggregated text *)

Lemma concat_empty_app (xs ys : list string) :
  String.concat "" (xs ++ ys) = String.concat "" xs +:+ String.concat "" ys.
Proof.
  induction xs as [|x xs IH]; [reflexivity|].
  assert (Hcons : forall zs, String.concat "" (x :: zs) = x +:+ String.concat "" zs).
  { intros [|z zs]; [by rewrite append_empty_r | reflexivity]. }
  change ((x :: xs) ++ ys) with (x :: (xs ++ ys)).
  by rewrite !Hcons, IH, append_assoc.
Qed.

Section TextMode.

Context (rt : Runtime) (l : LLM) (streamingFunc : option StreamingFunc).

Hypothesis text_mode : OutputMode_ (opts l) = OutputModeText.

Lemma dispatchToolUses_text_mode toolUses : forall st,
  builder (dispatchToolUses rt l streamingFunc toolUses st) = builder st.
Proof.
  induction toolUses as [|tu rest IH]; intros st; simpl; [reflexivity|].
  rewrite IH, handleToolEvent_builder. unfold toolText. rewrite text_mode.
  simpl. apply append_empty_r.
Qed.

Lemma scanLoop_text_mode scanned : forall st st',
  scanLoop rt l streamingFunc scanned st = (st', None) ->
  builder st' = builder st +:+ String.concat "" (flat_map (lineTexts rt) scanned).
Proof.
  induction scanned as [|text rest IH]; intros st st' Hrun.
  { simpl in Hrun. inversion Hrun. simpl. by rewrite append_empty_r. }
  simpl in Hrun. simpl flat_map. rewrite concat_empty_app.
  unfold lineTexts at 1. cbv zeta.
  destruct (streq (strings.TrimSpace text) "").
  { rewrite (IH _ _ Hrun). reflexivity. }
  destruct (json_Unmarshal rt (strings.TrimSpace text)) as [err|payload];
    [discriminate|].
  destruct (classify rt l streamingFunc payload st) as [st1 [err|]] eqn:Hline;
    [discriminate|].
  rewrite (IH _ _ Hrun), <- append_assoc. f_equal.
  revert Hline. unfold classify.
  destruct (assertString (payload !! "type")) as [msgType ok]. simpl.
  unfold streq. case_bool_decide as Hassistant.
  - destruct (extractAssistantContent payload) as [err|[texts toolUses]];
      [discriminate|].
    destruct (streamTexts_grows streamingFunc texts st)
      as (added & calls & Hb & _ & _ & Hok).
    destruct (streamTexts streamingFunc texts st) as [st2 [err|]];
      [discriminate|].
    intros [= <-]. rewrite dispatchToolUses_text_mode. simpl in *.
    by rewrite Hb, Hok.
  - repeat case_bool_decide; intros [= <-]; simpl;
      rewrite ?handleToolEvent_builder; unfold toolText;
      rewrite ?text_mode; simpl; by rewrite append_empty_r.
Qed.

End TextMode.

(** X10: in text-only mode, a stream read to its end without error yields
    exactly the texts of its assistant lines, concatenated in the order of
    the lines and, within a line, of the text blocks; tool events, result
    lines and unknown lines add nothing to the text. *)
Theorem readStream_text_is_the_assistant_texts
    (rt : Runtime) (l : LLM) (streamingFunc : option StreamingFunc)
    (stdout : Reader) (text : string) (info : option (gmap string any)) :
  OutputMode_ (opts l) = OutputModeText ->
  readStream rt l stdout streamingFunc = (text, info, None) ->
  text = String.concat ""
           (flat_map (lineTexts rt) (lines (stdout (MaxBufferSize (opts l))))).
Proof.
  intros Hmode. unfold readStream, readStream_run.
  destruct (scanLoop rt l streamingFunc _ initState) as [st [err|]] eqn:Hrun;
    [discriminate|].
  destruct (Err _); [discriminate|]. intros [= <- _].
  by rewrite (scanLoop_text_mode rt l streamingFunc Hmode _ _ _ Hrun).
Qed.

Lemma readStream_text_is_the_assistant_texts_witness :
  "hi" = String.concat ""
    (flat_map (lineTexts (testRuntime (decodeTwo "A" hiLine "S" systemLine) []))
       ["S"; " A"; ""; "S"]).
Proof.
  apply (readStream_text_is_the_assistant_texts
           (testRuntime (decodeTwo "A" hiLine "S" systemLine) [])
           (textModeClient (Some 7%nat)) (Some accept)
           (Stdout (quietProcess ["S"; " A"; ""; "S"])) "hi" None);
    vm_compute; reflexivity.
Defined.

(** ** Outcomes of the generation call *)

(** X11: a call returns a response or an error, never both and never
    neither. It returns a response exactly when the process could be
    started, its output was parsed to the end without error and it exited
    cleanly; the response then has one choice, holding the aggregated text
    and the generation info. *)
Theorem GenerateContent_response_iff
    (rt : Runtime) (l : LLM) (messages : list llms.MessageContent)
    (options : list CallOption) :
  ((exists resp, GenerateContent rt (Some l) messages options = (Some resp, None))
   \/ (exists err, GenerateContent rt (Some l) messages options = (None, Some err)))
  /\ (forall resp,
        GenerateContent rt (Some l) messages options = (Some resp, None)
        <-> exists proc text info,
              launch rt l messages = inr proc
              /\ readStream rt l (Stdout proc)
                   (StreamingFunc_ (resolveCallOptions options))
                 = (text, info, None)
              /\ Wait_err proc = None
              /\ resp = {| llms.Choices :=
                             [{| llms.Content_ := text;
                                 llms.GenerationInfo := info |}] |}).
Proof.
  rewrite GenerateContent_launch.
  destruct (launch rt l messages) as [err|proc].
  { split; [right; eauto|]. intros resp. split; [done|].
    by intros (proc & text & info & Hl & _). }
  destruct (readStream rt l (Stdout proc) _) as [[text info] [err|]] eqn:Hread.
  { split; [right; eauto|]. intros resp. split; [done|].
    intros (proc' & text' & info' & [= <-] & Hr & _). congruence. }
  destruct (Wait_err proc) as [cause|] eqn:Hwait.
  { split.
    - right. cbv zeta. destruct (negb _); eauto.
    - intros resp. split.
      + cbv zeta. by destruct (negb _).
      + intros (proc' & text' & info' & [= <-] & _ & Hw & _). congruence. }
  split; [left; eauto|]. intros resp. split.
  - intros [= <-]. exists proc, text, info. done.
  - intros (proc' & text' & info' & [= <-] & Hr & _ & ->).
    rewrite Hread in Hr. by inversion Hr.
Qed.

Lemma GenerateContent_response_iff_witness :
  GenerateContent (testRuntime (decodeTwo "A" hiLine "S" systemLine) ["A"; "S"])
    (Some (textModeClient None)) [humanMessage "hello"] []
  = (Some {| llms.Choices :=
               [{| llms.Content_ := "hi"; llms.GenerationInfo := None |}] |},
     None).
Proof.
  apply (proj2 (GenerateContent_response_iff
                  (testRuntime (decodeTwo "A" hiLine "S" systemLine) ["A"; "S"])
                  (textModeClient None) [humanMessage "hello"] [])).
  exists (quietProcess ["A"; "S"]), "hi", None.
  split; [vm_compute; reflexivity|].
  split; [vm_compute; reflexivity|].
  split; reflexivity.
Defined.

(** X12: a failure to read the output, after every line has been handled,
    is reported as a read error wrapping the cause, with the text and the
    generation info accumulated; the call returns only the error. *)
Theorem read_error_is_reported
    (rt : Runtime) (l : LLM) (messages : list llms.MessageContent)
    (options : list CallOption) (proc : Process) (st : StreamState)
    (cause : error) :
  launch rt l messages = inr proc ->
  scanLoop rt l (StreamingFunc_ (resolveCallOptions options))
    (lines (Stdout proc (MaxBufferSize (opts l)))) initState = (st, None) ->
  Err (Stdout proc (MaxBufferSize (opts l))) = Some cause ->
  readStream rt l (Stdout proc) (StreamingFunc_ (resolveCallOptions options))
  = (builder st, generationInfo st, Some (ErrReadStdout cause))
  /\ GenerateContent rt (Some l) messages options
     = (None, Some (ErrReadStdout cause)).
Proof.
  intros Hlaunch Hrun Herr.
  assert (Hread : readStream rt l (Stdout proc)
                    (StreamingFunc_ (resolveCallOptions options))
                  = (builder st, generationInfo st, Some (ErrReadStdout cause))).
  { unfold readStream, readStream_run. by rewrite Hrun, Herr. }
  split; [exact Hread|].
  by rewrite GenerateContent_launch, Hlaunch, Hread.
Qed.

(** X13: when the output was parsed without error but the process exits
    with an error, the call returns no response, although a text was
    aggregated: the error wraps the exit error and carries the trimmed
    standard error text, or nothing when that text is blank. *)
Theorem exit_error_discards_the_response
    (rt : Runtime) (l : LLM) (messages : list llms.MessageContent)
    (options : list CallOption) (proc : Process) (text : string)
    (info : option (gmap string any)) (cause : error) :
  launch rt l messages = inr proc ->
  readStream rt l (Stdout proc) (StreamingFunc_ (resolveCallOptions options))
  = (text, info, None) ->
  Wait_err proc = Some cause ->
  GenerateContent rt (Some l) messages options
  = (None,
     Some (ErrCLIFailed cause
             (if decide (strings.TrimSpace (Stderr proc) = "") then None
              else Some (strings.TrimSpace (Stderr proc))))).
Proof.
  intros Hlaunch Hread Hwait.
  rewrite GenerateContent_launch, Hlaunch, Hread, Hwait. cbv zeta.
  unfold streq. case_bool_decide as Hblank; simpl; by case_decide.
Qed.

Lemma read_error_is_reported_witness :
  let proc := failingProcess ["A"] (Some (ErrExternal "token too long")) None "" in
  GenerateContent
    (withProcess (testRuntime (decodeTwo "A" hiLine "S" systemLine) []) proc)
    (Some (textModeClient None)) [humanMessage "hello"] []
  = (None, Some (ErrReadStdout (ErrExternal "token too long"))).
Proof.
  intros proc.
  apply (read_error_is_reported
           (withProcess (testRuntime (decodeTwo "A" hiLine "S" systemLine) []) proc)
           (textModeClient None) [humanMessage "hello"] [] proc
           (WriteString "hi" initState)).
  - vm_compute. reflexivity.
  - vm_compute. reflexivity.
  - reflexivity.
Defined.

Lemma exit_error_discards_the_response_witness :
  let proc := failingProcess ["A"] None (Some (ErrExternal "exit status 1"))
                " boom " in
  GenerateContent
    (withProcess (testRuntime (decodeTwo "A" hiLine "S" systemLine) []) proc)
    (Some (textModeClient None)) [humanMessage "hello"] []
  = (None, Some (ErrCLIFailed (ErrExternal "exit status 1") (Some "boom"))).
Proof.
  intros proc.
  apply (exit_error_discards_the_response
           (withProcess (testRuntime (decodeTwo "A" hiLine "S" systemLine) []) proc)
           (textModeClient None) [humanMessage "hello"] [] proc "hi" None).
  - vm_compute. reflexivity.
  - vm_compute. reflexivity.
  - reflexivity.
Defined.

(** ** Tool events outside text-only mode *)

(** X14: the streaming callback cannot disturb the handling of tool
    events: the error it may return for a tool summary is dropped, so the
    state after an event, and after all the [tool_use] blocks of a line,
    is the same for any two callbacks, and a [tool_result] line never ends
    the parsing. *)
Theorem tool_events_ignore_callback_errors
    (rt : Runtime) (l : LLM) (f g : StreamingFunc) (st : StreamState) :
  (forall event,
     handleToolEvent rt l event (Some f) st = handleToolEvent rt l event (Some g) st)
  /\ (forall toolUses,
        dispatchToolUses rt l (Some f) toolUses st
        = dispatchToolUses rt l (Some g) toolUses st)
  /\ (forall payload,
        payload !! "type" = Some (AStr "tool_result") ->
        classify rt l (Some f) payload st = classify rt l (Some g) payload st
        /\ (classify rt l (Some f) payload st).2 = None).
Proof.
  assert (Hevent : forall event st0,
    handleToolEvent rt l event (Some f) st0
    = handleToolEvent rt l event (Some g) st0).
  { intros event st0. unfold handleToolEvent. reflexivity. }
  split; [intros event; apply Hevent|]. split.
  - intros toolUses. revert st.
    induction toolUses as [|tu rest IH]; intros st; simpl; [reflexivity|].
    by rewrite Hevent, IH.
  - intros payload Hty. unfold classify. rewrite Hty. simpl.
    by rewrite Hevent.
Qed.

Lemma tool_events_ignore_callback_errors_witness :
  (classify (testRuntime noDecode [])
     {| cliPath := "claude"; opts := WithOutputMode OutputModeFull defaultOptions |}
     (Some (refuse "x"))
     {[ "type" := AStr "tool_result"; "content" := AStr "done" ]} initState).2
  = None.
Proof.
  destruct (tool_events_ignore_callback_errors (testRuntime noDecode [])
    {| cliPath := "claude"; opts := WithOutputMode OutputModeFull defaultOptions |}
    (refuse "x") accept initState) as (_ & _ & Hline).
  apply Hline. reflexivity.
Defined.

Lemma formatToolUseSummary_shape toolName input :
  exists detail,
    formatToolUseSummary toolName input
    = strings.LF +:+ wrench +:+ " " +:+ toolName +:+ detail +:+ strings.LF
    /\ (detail = "" \/ exists d, d <> "" /\ detail = ": " +:+ d).
Proof.
  unfold formatToolUseSummary.
  match goal with |- context [negb (streq ?d "")] => set (detail := d) end.
  unfold streq. case_bool_decide as Hd; simpl.
  - exists "". split; [reflexivity | by left].
  - exists (": " +:+ detail). split; [reflexivity | right; eauto].
Qed.

(** X15: in verbose mode a tool-requested event adds a summary to the
    output: a line feed, the wrench, the tool name, possibly a colon and a
    non-empty detail, and a line feed; the streaming callback, when set,
    receives the same summary once, after the hook has run. A
    tool-completed event adds no text and reaches only the hook. *)
Theorem verbose_mode_summarises_tool_use
    (rt : Runtime) (l : LLM) (event : ToolEvent)
    (streamingFunc : option StreamingFunc) (st : StreamState) :
  OutputMode_ (opts l) = OutputModeVerbose ->
  let st' := handleToolEvent rt l event streamingFunc st in
  (Type_ event = ToolEventUse ->
   exists detail,
     let summary := strings.LF +:+ wrench +:+ " " +:+ ToolName event
                      +:+ detail +:+ strings.LF in
     (detail = "" \/ exists d, d <> "" /\ detail = ": " +:+ d)
     /\ builder st' = builder st +:+ summary
     /\ trace st' = trace st ++ hookEffects l event
                      ++ match streamingFunc with
                         | Some _ => [CallStreamingFunc summary]
                         | None => []
                         end)
  /\ (Type_ event = ToolEventResult ->
      builder st' = builder st /\ trace st' = trace st ++ hookEffects l event).
Proof.
  intros Hmode st'. subst st'.
  rewrite handleToolEvent_builder, handleToolEvent_trace.
  unfold toolEffects, toolText, toolSummary. rewrite Hmode. simpl. split.
  - intros ->. simpl.
    destruct (formatToolUseSummary_shape (ToolName event) (Input event))
      as (detail & Hsummary & Hdetail).
    exists detail. cbv zeta. rewrite <- Hsummary.
    split; [exact Hdetail|]. split; [reflexivity|].
    destruct streamingFunc; [|reflexivity].
    unfold streq. rewrite bool_decide_eq_false_2; [reflexivity|].
    rewrite Hsummary. discriminate.
  - intros ->. simpl. rewrite append_empty_r.
    split; [reflexivity|]. destruct streamingFunc; by rewrite app_nil_r.
Qed.

Lemma verbose_mode_summarises_tool_use_witness :
  builder (handleToolEvent (testRuntime noDecode [])
             {| cliPath := "claude";
                opts := WithOutputMode OutputModeVerbose defaultOptions |}
             readEvent (Some accept) initState)
  = strings.LF +:+ wrench +:+ " Read: a.go" +:+ strings.LF.
Proof.
  destruct (verbose_mode_summarises_tool_use (testRuntime noDecode [])
    {| cliPath := "claude"; opts := WithOutputMode OutputModeVerbose defaultOptions |}
    readEvent (Some accept) initState eq_refl) as [Huse _].
  destruct (Huse eq_refl) as (detail & _ & Hb & _).
  vm_compute. reflexivity.
Defined.

(** ** Truncation *)

Lemma length_append (a b : string) :
  String.length (a +:+ b) = (String.length a + String.length b)%nat.
Proof. induction a as [|c a IH]; [reflexivity | simpl; by rewrite IH]. Qed.

Lemma length_slice_to n : forall s,
  String.length (strings.slice_to n s) = Nat.min n (String.length s).
Proof.
  unfold strings.slice_to.
  induction n as [|n IH]; intros [|c s]; simpl; try reflexivity.
  by rewrite IH.
Qed.

Lemma slice_to_all n : forall s,
  (String.length s <= n)%nat -> strings.slice_to n s = s.
Proof.
  unfold strings.slice_to.
  induction n as [|n IH]; intros [|c s] Hlen; simpl in *; try reflexivity;
    [lia | rewrite IH; [reflexivity | lia]].
Qed.




(** ** Generation info *)

(** X17: merging a result line touches only the four keys it knows: every
    other key of the generation info keeps its value and no key is ever
    removed; fields of the line other than the four are dropped; merging
    the same line twice is merging it once; and a line with none of the
    four fields still turns a nil generation info into an empty one. *)
Theorem mergeResultInfo_frame
    (existing : option (gmap string any)) (payload : gmap string any) :
  (forall key,
     key ∉ ["TotalCostUSD"; "Usage"; "Result"; "StructuredOutput"] ->
     mergeResultInfo existing payload !! key = default ∅ existing !! key)
  /\ (forall key,
        is_Some (default ∅ existing !! key) ->
        is_Some (mergeResultInfo existing payload !! key))
  /\ mergeResultInfo (Some (mergeResultInfo existing payload)) payload
     = mergeResultInfo existing payload
  /\ ((forall from to, (from, to) ∈ resultFields -> payload !! from = None) ->
      mergeResultInfo existing payload = default ∅ existing).
Proof.
  assert (Hother : forall key,
    key ∉ ["TotalCostUSD"; "Usage"; "Result"; "StructuredOutput"] ->
    mergeResultInfo existing payload !! key = default ∅ existing !! key).
  { intros key Hkey. unfold mergeResultInfo, mergeField.
    assert (key <> "TotalCostUSD" /\ key <> "Usage" /\ key <> "Result"
            /\ key <> "StructuredOutput") as (H1 & H2 & H3 & H4).
    { repeat split; intros ->; apply Hkey; set_solver. }
    destruct (payload !! "total_cost_usd"), (payload !! "usage"),
      (payload !! "result"), (payload !! "structured_output");
      by simplify_map_eq. }
  assert (Hcases : forall key,
    key ∈ ["TotalCostUSD"; "Usage"; "Result"; "StructuredOutput"] ->
    exists from, (from, key) ∈ resultFields).
  { intros key Hin. set_unfold in Hin.
    destruct_or!; subst;
      [exists "total_cost_usd" | exists "usage" | exists "result"
      | exists "structured_output"]; unfold resultFields; set_solver. }
  split; [exact Hother|]. split; [|split].
  - intros key Hsome.
    destruct (decide (key ∈ ["TotalCostUSD"; "Usage"; "Result"; "StructuredOutput"]))
      as [Hin|Hout].
    + destruct (Hcases key Hin) as [from Hfrom].
      rewrite (mergeResultInfo_lookup _ _ from key Hfrom).
      by destruct (payload !! from).
    + by rewrite Hother.
  - apply map_eq. intros key.
    destruct (decide (key ∈ ["TotalCostUSD"; "Usage"; "Result"; "StructuredOutput"]))
      as [Hin|Hout].
    + destruct (Hcases key Hin) as [from Hfrom].
      rewrite !(mergeResultInfo_lookup _ _ from key Hfrom). simpl.
      rewrite (mergeResultInfo_lookup _ _ from key Hfrom).
      by destruct (payload !! from).
    + unfold mergeResultInfo at 1, mergeField.
      assert (key <> "TotalCostUSD" /\ key <> "Usage" /\ key <> "Result"
              /\ key <> "StructuredOutput") as (H1 & H2 & H3 & H4).
      { repeat split; intros ->; apply Hout; set_solver. }
      destruct (payload !! "total_cost_usd"), (payload !! "usage"),
        (payload !! "result"), (payload !! "structured_output");
        by simplify_map_eq.
  - intros Hnone. unfold mergeResultInfo, mergeField.
    rewrite (Hnone "total_cost_usd" "TotalCostUSD"),
      (Hnone "usage" "Usage"), (Hnone "result" "Result"),
      (Hnone "structured_output" "StructuredOutput");
      unfold resultFields; [reflexivity | set_solver..].
Qed.

Lemma mergeResultInfo_frame_witness :
  mergeResultInfo None {[ "type" := AStr "result"; "is_error" := ABool false ]}
  = ∅.
Proof.
  apply (proj2 (proj2 (proj2
           (mergeResultInfo_frame None
              {[ "type" := AStr "result"; "is_error" := ABool false ]})))).
  intros from to Hin. unfold resultFields in Hin.
  set_unfold in Hin; destruct_or!; simplify_eq; vm_compute; reflexivity.
Defined.

(** ** Assistant content *)

(** X18: extracting the content of an assistant line succeeds exactly when
    [message] is an object whose [content] is a list or a string; a string
    gives itself as the only text (no text when empty) and never a tool
    call. *)
Theorem extractAssistantContent_succeeds_iff (payload : gmap string any) :
  ((exists result, extractAssistantContent payload = inr result)
   <-> exists message,
         payload !! "message" = Some (AMap message)
         /\ ((exists blocks, message !! "content" = Some (AList blocks))
             \/ (exists s, message !! "content" = Some (AStr s))))
  /\ (forall message s,
        payload !! "message" = Some (AMap message) ->
        message !! "content" = Some (AStr s) ->
        extractAssistantContent payload
        = inr (if decide (s = "") then [] else [s], [])).
Proof.
  split.
  - unfold extractAssistantContent. split.
    + intros [result Hresult].
      destruct (payload !! "message") as [[| | | | |message]|]; try discriminate.
      exists message. split; [reflexivity|].
      destruct (message !! "content") as [[| | |s|blocks|]|]; try discriminate;
        [right | left]; eauto.
    + intros (message & -> & [[blocks ->]|[s ->]]); [eauto|].
      destruct (streq s ""); eauto.
  - intros message s Hmsg Hcontent. unfold extractAssistantContent.
    rewrite Hmsg, Hcontent. unfold streq.
    case_bool_decide; by case_decide.
Qed.

Lemma extractAssistantContent_succeeds_iff_witness :
  extractAssistantContent {[ "message" := AMap {[ "content" := AStr "hi" ]} ]}
  = inr (["hi"], []).
Proof.
  apply (proj2 (extractAssistantContent_succeeds_iff
                  {[ "message" := AMap {[ "content" := AStr "hi" ]} ]})
           {[ "content" := AStr "hi" ]} "hi");
    vm_compute; reflexivity.
Defined.

(** ** The environment of the process *)

(** X19: the environment handed to the process starts with the base
    environment, unchanged and in its order; after it comes one [k=v]
    entry for each override, in the order the map is iterated. Entries of
    the base environment are not removed, even when an override has the
    same key. With no override the base environment is returned as it
    is. *)
Theorem mergeEnv_appends_overrides
    (rt : Runtime) (base : list string) (overrides : option (gmap string string)) :
  range_visits_keys rt ->
  exists added,
    mergeEnv rt base overrides = base ++ added
    /\ added ≡ₚ envEntry <$> map_to_list (default ∅ overrides)
    /\ (default ∅ overrides = ∅ -> mergeEnv rt base overrides = base).
Proof.
  intros Hrange. unfold mergeEnv. set (m := default ∅ overrides).
  assert (Hentries :
    map (fun k => k +:+ "=" +:+ default "" (m !! k)) (map_range rt m)
    ≡ₚ envEntry <$> map_to_list m).
  { transitivity (map (fun k => k +:+ "=" +:+ default "" (m !! k))
                    ((map_to_list m).*1));
      [apply Permutation_map, Hrange|].
    assert (Hlist : forall kvs : list (string * string),
      (forall kv, kv ∈ kvs -> m !! kv.1 = Some kv.2) ->
      map (fun k => k +:+ "=" +:+ default "" (m !! k)) (kvs.*1)
      = envEntry <$> kvs).
    { induction kvs as [|kv kvs IH]; intros Hkvs; [reflexivity|].
      simpl. rewrite (Hkvs kv) by by left.
      f_equal. apply IH. intros kv' Hin. apply Hkvs. by right. }
    rewrite Hlist; [reflexivity|].
    intros [k v] Hin. by apply elem_of_map_to_list. }
  case_bool_decide as Hsize.
  - exists []. apply map_size_empty_inv in Hsize.
    rewrite app_nil_r, Hsize, map_to_list_empty. done.
  - eexists. split; [reflexivity|]. split; [exact Hentries|].
    intros Hempty. rewrite Hempty, map_size_empty in Hsize. done.
Qed.

Lemma mergeEnv_appends_overrides_witness :
  mergeEnv (testRuntime noDecode []) ["PATH=/bin"; "A=0"] (Some {[ "A" := "1" ]})
  = ["PATH=/bin"; "A=0"; "A=1"].
Proof.
  destruct (mergeEnv_appends_overrides (testRuntime noDecode [])
    ["PATH=/bin"; "A=0"] (Some {[ "A" := "1" ]})) as (added & Hmerge & _).
  - apply testRuntime_range.
  - vm_compute. reflexivity.
Defined.

(** ** Constructing a client *)

Lemma New_opts rt options l :
  New rt options = inr l -> opts l = fillDefaults (applyOptions options).
Proof.
  unfold New. fold (applyOptions options).
  destruct (if streq _ "" then _ else _) as [err|path]; [discriminate|].
  by intros [= <-].
Qed.

(** X20: [New] takes the configured CLI path, trimmed, when it is not
    blank, and then looks nothing up. Otherwise it prefers the binary
    under the home directory when that resolves (the path it keeps is the
    one it built, not the one the lookup returned) and falls back on the
    search path; only when that lookup fails too does [New] fail, and
    always with [ErrCLINotFound] around the cause. *)
Theorem New_resolves_the_cli_path (rt : Runtime) (options : list Option_) :
  let configured := strings.TrimSpace (CLIPath (applyOptions options)) in
  (configured <> "" ->
   New rt options
   = inr {| cliPath := configured; opts := fillDefaults (applyOptions options) |})
  /\ (forall home found,
        configured = "" ->
        os_UserHomeDir rt = inr home ->
        exec_LookPath rt (filepath_Join rt [home; ".local"; "bin"; "claude"])
        = inr found ->
        filepath_Join rt [home; ".local"; "bin"; "claude"] <> "" ->
        New rt options
        = inr {| cliPath := filepath_Join rt [home; ".local"; "bin"; "claude"];
                 opts := fillDefaults (applyOptions options) |})
  /\ (configured = "" ->
      (forall home found,
         os_UserHomeDir rt = inr home ->
         exec_LookPath rt (filepath_Join rt [home; ".local"; "bin"; "claude"])
         <> inr found) ->
      New rt options
      = match exec_LookPath rt "claude" with
        | inr path =>
            inr {| cliPath := path; opts := fillDefaults (applyOptions options) |}
        | inl cause => inl (ErrCLINotFound cause)
        end)
  /\ (forall err,
        New rt options = inl err ->
        exists cause,
          err = ErrCLINotFound cause /\ exec_LookPath rt "claude" = inl cause
          /\ configured = "").
Proof.
  intros configured. unfold New. fold (applyOptions options). fold configured.
  unfold streq. split; [|split; [|split]].
  - intros Hconf. by rewrite bool_decide_eq_false_2.
  - intros home found Hconf Hhome Hfound Hpath.
    rewrite bool_decide_eq_true_2 by exact Hconf.
    unfold resolveCLIPath. rewrite Hhome, Hfound. unfold streq.
    by rewrite bool_decide_eq_false_2.
  - intros Hconf Hnone. rewrite bool_decide_eq_true_2 by exact Hconf.
    unfold resolveCLIPath.
    destruct (os_UserHomeDir rt) as [e|home] eqn:Hhome.
    + simpl. by destruct (exec_LookPath rt "claude").
    + destruct (exec_LookPath rt (filepath_Join rt _)) as [e|found] eqn:Hfound.
      * simpl. by destruct (exec_LookPath rt "claude").
      * by destruct (Hnone home found eq_refl).
  - intros err. case_bool_decide as Hconf; [|discriminate].
    unfold resolveCLIPath, streq. case_bool_decide; [|discriminate].
    destruct (exec_LookPath rt "claude") as [cause|path]; [|discriminate].
    intros [= <-]. eauto.
Qed.

Lemma New_resolves_the_cli_path_witness :
  New (testRuntime noDecode []) [WithCLIPath " /opt/claude "; WithModel "m"]
  = inr {| cliPath := "/opt/claude";
           opts := fillDefaults
                     (applyOptions [WithCLIPath " /opt/claude "; WithModel "m"]) |}.
Proof.
  destruct (New_resolves_the_cli_path (testRuntime noDecode [])
    [WithCLIPath " /opt/claude "; WithModel "m"]) as [Hconfigured _].
  apply Hconfigured. vm_compute. discriminate.
Defined.

Lemma fillDefaults_fields options :
  PermissionMode (fillDefaults options)
  = (if decide (PermissionMode options = "") then defaultPermissionMode
     else PermissionMode options)
  /\ Env (fillDefaults options) = Some (default ∅ (Env options))
  /\ ExtraArgs (fillDefaults options) = Some (default ∅ (ExtraArgs options))
  /\ Model (fillDefaults options) = Model options
  /\ Tools (fillDefaults options) = Tools options
  /\ AllowedTools (fillDefaults options) = AllowedTools options
  /\ DisallowedTools (fillDefaults options) = DisallowedTools options
  /\ SystemPrompt (fillDefaults options) = SystemPrompt options
  /\ Cwd (fillDefaults options) = Cwd options
  /\ OutputMode_ (fillDefaults options) = OutputMode_ options
  /\ ToolEventHook_ (fillDefaults options) = ToolEventHook_ options.
Proof.
  unfold fillDefaults.
  destruct options as [? ? ? ? pm ? ? ? env extra size ? ? ? ? ? ?].
  simpl. unfold streq. case_bool_decide; case_decide; try done; simpl;
    destruct (size <=? 0); simpl; destruct env, extra; done.
Qed.

(** X21: a client built by [New] never has an empty permission mode: an
    empty one, also one set on purpose with [WithPermissionMode ""], is
    replaced by [bypassPermissions]; so every command it builds carries
    the [--permission-mode] flag with that mode. Its environment and extra
    argument maps are never nil, and the other settings are those the
    options left. *)
Theorem New_fills_the_permission_mode
    (rt : Runtime) (options : list Option_) (l : LLM) :
  New rt options = inr l ->
  PermissionMode (opts l) <> ""
  /\ PermissionMode (opts l)
     = (if decide (PermissionMode (applyOptions options) = "")
        then "bypassPermissions" else PermissionMode (applyOptions options))
  /\ is_Some (Env (opts l)) /\ is_Some (ExtraArgs (opts l))
  /\ Model (opts l) = Model (applyOptions options)
  /\ Tools (opts l) = Tools (applyOptions options)
  /\ (forall rt' prompt systemPrompt,
        exists pre post,
          buildCommand_args rt' l prompt systemPrompt
          = pre ++ ["--permission-mode"; PermissionMode (opts l)] ++ post).
Proof.
  intros Hnew. apply New_opts in Hnew.
  destruct (fillDefaults_fields (applyOptions options))
    as (Hpm & Henv & Hextra & Hmodel & Htools & _).
  rewrite <- Hnew in Hpm, Henv, Hextra, Hmodel, Htools.
  assert (Hne : PermissionMode (opts l) <> "").
  { rewrite Hpm. by case_decide. }
  split; [exact Hne|]. split; [exact Hpm|].
  split; [rewrite Henv; eauto|]. split; [rewrite Hextra; eauto|].
  split; [exact Hmodel|]. split; [exact Htools|].
  intros rt' prompt systemPrompt.
  destruct (buildCommand_args_shape rt' l prompt systemPrompt) as [keys ->].
  rewrite fixedArgs_parts.
  assert (Hflag : optFlags (negb (streq (PermissionMode (opts l)) ""))
                    ["--permission-mode"; PermissionMode (opts l)]
                  = ["--permission-mode"; PermissionMode (opts l)]).
  { unfold streq. by rewrite bool_decide_eq_false_2. }
  rewrite Hflag.
  set (optS := optFlags (negb (streq systemPrompt "")) _).
  set (optT := optFlags (nonEmpty (Tools (opts l))) _).
  set (optA := optFlags (nonEmpty (AllowedTools (opts l))) _).
  set (optD := optFlags (nonEmpty (DisallowedTools (opts l))) _).
  set (optM := optFlags (negb (streq (Model (opts l)) "")) _).
  set (flags := flat_map _ keys).
  exists (["--output-format"; "stream-json"; "--verbose"]
            ++ optS ++ optT ++ optA ++ optD ++ optM),
    (flags ++ ["--print"; "--"; prompt]).
  by rewrite <- !app_assoc.
Qed.

Lemma New_fills_the_permission_mode_witness :
  exists l,
    New (testRuntime noDecode []) [WithPermissionMode ""] = inr l
    /\ PermissionMode (opts l) = "bypassPermissions".
Proof.
  eexists. split; [reflexivity|].
  destruct (New_fills_the_permission_mode (testRuntime noDecode [])
    [WithPermissionMode ""] _ eq_refl) as (_ & Hpm & _).
  exact Hpm.
Defined.

Lemma lastPositive_pos sizes : forall d, 0 < d -> 0 < lastPositive sizes d.
Proof.
  unfold lastPositive. induction sizes as [|size rest IH]; intros d Hd;
    [exact Hd|].
  simpl. apply IH. destruct (Z.ltb_spec 0 size); lia.
Qed.

(** X22: of several max-buffer-size options the last positive one counts:
    a later zero or negative size does not undo it, and with no positive
    size at all the client keeps the default of 1 MiB. *)
Theorem WithMaxBufferSize_last_positive_wins
    (rt : Runtime) (sizes : list Z) (l : LLM) :
  (forall o,
     MaxBufferSize (fold_left (fun o opt => opt o) (map WithMaxBufferSize sizes) o)
     = lastPositive sizes (MaxBufferSize o))
  /\ (New rt (map WithMaxBufferSize sizes) = inr l ->
      MaxBufferSize (opts l) = lastPositive sizes 1048576).
Proof.
  assert (Hfold : forall o,
    MaxBufferSize (fold_left (fun o opt => opt o) (map WithMaxBufferSize sizes) o)
    = lastPositive sizes (MaxBufferSize o)).
  { unfold lastPositive. induction sizes as [|size rest IH]; intros o;
      [reflexivity|].
    simpl. rewrite IH. unfold WithMaxBufferSize.
    destruct (0 <? size); [by destruct o | reflexivity]. }
  split; [exact Hfold|].
  intros Hnew. rewrite (New_opts _ _ _ Hnew), fillDefaults_MaxBufferSize.
  unfold applyOptions. rewrite Hfold.
  change (MaxBufferSize defaultOptions) with 1048576.
  pose proof (lastPositive_pos sizes 1048576 ltac:(lia)) as Hpos.
  destruct (Z.leb_spec (lastPositive sizes 1048576) 0); [lia | reflexivity].
Qed.

Lemma WithMaxBufferSize_last_positive_wins_witness :
  exists l,
    New (testRuntime noDecode []) (map WithMaxBufferSize [4096; 0; -1]) = inr l
    /\ MaxBufferSize (opts l) = 4096.
Proof.
  exists {| cliPath := "claude";
            opts := fillDefaults (applyOptions (map WithMaxBufferSize [4096; 0; -1])) |}.
  split; [reflexivity|].
  destruct (WithMaxBufferSize_last_positive_wins (testRuntime noDecode [])
    [4096; 0; -1]
    {| cliPath := "claude";
       opts := fillDefaults (applyOptions (map WithMaxBufferSize [4096; 0; -1])) |})
    as [_ Hnew].
  apply Hnew. reflexivity.
Defined.

(** X23: the names of the output modes and of the event types tell the
    defined values apart and call every other value [unknown]. *)
Theorem enumeration_names (m m' : OutputMode) (t t' : ToolEventType) :
  (OutputMode_String m = "unknown" <-> ~ (0 <= m <= 2))
  /\ (0 <= m <= 2 -> OutputMode_String m = OutputMode_String m' -> m = m')
  /\ (ToolEventType_String t = "unknown" <-> ~ (0 <= t <= 1))
  /\ (0 <= t <= 1 -> ToolEventType_String t = ToolEventType_String t' -> t = t').
Proof.
  unfold OutputMode_String, ToolEventType_String, OutputModeText,
    OutputModeVerbose, OutputModeFull, ToolEventUse, ToolEventResult.
  split; [|split; [|split]];
    repeat match goal with
           | |- context [?a =? ?b] => destruct (Z.eqb_spec a b)
           end;
    try split; intros;
    first [reflexivity | discriminate | lia | exfalso; lia].
Qed.

Lemma enumeration_names_witness :
  OutputMode_String 7 = "unknown"
  /\ (ToolEventType_String 1 = ToolEventType_String 1 -> 1 = 1).
Proof.
  destruct (enumeration_names 7 0 1 1) as (Hm & _ & _ & Ht).
  split; [apply Hm; lia | apply Ht; lia].
Defined.

(** ** The text-only parser and the parser with tool events *)

Lemma extractTexts_textsOf blocks : forall texts,
  pkg.extractTexts blocks texts = texts ++ textsOf blocks.
Proof.
  unfold textsOf.
  induction blocks as [|block rest IH]; intros texts; [by rewrite app_nil_r|].
  destruct block as [| | | |bs|blockMap]; simpl; try apply IH.
  destruct (assertString (blockMap !! "type")) as [blockType ok].
  destruct (assertString (blockMap !! "text")) as [text ok'].
  simpl. unfold streq.
  repeat case_bool_decide; simplify_eq; simpl;
    rewrite IH, <- ?app_assoc; reflexivity.
Qed.

Lemma extractAssistantTexts_fst payload :
  pkg.extractAssistantTexts payload
  = match extractAssistantContent payload with
    | inl err => inl err
    | inr (texts, _) => inr texts
    end.
Proof.
  unfold pkg.extractAssistantTexts, extractAssistantContent.
  destruct (payload !! "message") as [[| | | | |message]|]; try reflexivity.
  destruct (message !! "content") as [[| | |s|blocks|]|]; try reflexivity.
  - by destruct (streq s "").
  - by rewrite extractTexts_textsOf, extractBlocks_omap.
Qed.

Section Agreement.

Context (rt : Runtime) (l : LLM) (streamingFunc : option StreamingFunc).

Hypothesis text_mode : OutputMode_ (opts l) = OutputModeText.
Hypothesis no_hook : ToolEventHook_ (opts l) = None.

Lemma streamTexts_sameOutput texts : forall st1 st2,
  sameOutput st1 st2 ->
  sameOutput (streamTexts streamingFunc texts st1).1
             (streamTexts streamingFunc texts st2).1
  /\ (streamTexts streamingFunc texts st1).2
     = (streamTexts streamingFunc texts st2).2.
Proof.
  induction texts as [|text rest IH]; intros st1 st2 (Hb & Hg & Ht); [done|].
  simpl. destruct streamingFunc as [f|].
  - unfold callStreamingFunc. rewrite Ht.
    destruct (f (trace st2) text); simpl.
    + repeat split; simpl; congruence.
    + apply IH. repeat split; simpl; congruence.
  - apply IH. repeat split; simpl; congruence.
Qed.

Lemma handleToolEvent_quiet event st :
  sameOutput (handleToolEvent rt l event streamingFunc st) st.
Proof.
  unfold handleToolEvent. rewrite no_hook, text_mode. done.
Qed.

Lemma dispatchToolUses_quiet toolUses : forall st,
  sameOutput (dispatchToolUses rt l streamingFunc toolUses st) st.
Proof.
  induction toolUses as [|tu rest IH]; intros st; simpl; [done|].
  destruct (IH (handleToolEvent rt l (toolUseEvent rt tu st) streamingFunc (tick st)))
    as (Hb & Hg & Ht).
  destruct (handleToolEvent_quiet (toolUseEvent rt tu st) (tick st))
    as (Hb' & Hg' & Ht').
  repeat split; simpl in *; congruence.
Qed.

Lemma classify_agree payload st1 st2 :
  sameOutput st1 st2 ->
  sameOutput (pkg.classify streamingFunc payload st1).1
             (classify rt l streamingFunc payload st2).1
  /\ (pkg.classify streamingFunc payload st1).2
     = (classify rt l streamingFunc payload st2).2.
Proof.
  intros Hsame. unfold pkg.classify, classify.
  destruct (assertString (payload !! "type")) as [msgType ok].
  unfold streq. case_bool_decide as Hassistant.
  - rewrite extractAssistantTexts_fst.
    destruct (extractAssistantContent payload) as [err|[texts toolUses]];
      [done|].
    destruct (streamTexts_sameOutput texts st1 st2 Hsame) as [Hst Herr].
    destruct (streamTexts streamingFunc texts st1) as [st1' e1].
    destruct (streamTexts streamingFunc texts st2) as [st2' e2].
    simpl in *. subst e2. destruct e1 as [err|]; [done|]. simpl.
    destruct (dispatchToolUses_quiet toolUses st2') as (Hb & Hg & Ht).
    destruct Hst as (Hb' & Hg' & Ht').
    repeat split; simpl; congruence.
  - destruct Hsame as (Hb' & Hg' & Ht').
    repeat case_bool_decide; simplify_eq;
      try match goal with
          | |- context [handleToolEvent rt l ?ev streamingFunc ?s] =>
              destruct (handleToolEvent_quiet ev s) as (Hb & Hg & Ht)
          end;
      repeat split; simpl in *; congruence.
Qed.

Lemma scanLoop_agree scanned : forall st1 st2,
  sameOutput st1 st2 ->
  sameOutput (pkg.scanLoop rt streamingFunc scanned st1).1
             (scanLoop rt l streamingFunc scanned st2).1
  /\ (pkg.scanLoop rt streamingFunc scanned st1).2
     = (scanLoop rt l streamingFunc scanned st2).2.
Proof.
  induction scanned as [|text rest IH]; intros st1 st2 Hsame; [done|].
  simpl. destruct (streq (strings.TrimSpace text) ""); [by apply IH|].
  destruct (json_Unmarshal rt (strings.TrimSpace text)) as [err|payload];
    [done|].
  destruct (classify_agree payload st1 st2 Hsame) as [Hst Herr].
  destruct (pkg.classify streamingFunc payload st1) as [st1' e1].
  destruct (classify rt l streamingFunc payload st2) as [st2' e2].
  simpl in *. subst e2. destruct e1 as [err|]; [done | by apply IH].
Qed.

End Agreement.

(** X24: the parser with tool events extends the text-only parser: the
    texts the older [extractAssistantTexts] returns are those of
    [extractAssistantContent], with the same errors; and for a client in
    text-only mode with no tool hook, the two [readStream] return the same
    text, generation info and error on every stream, and call the
    streaming callback with the same chunks in the same order. *)
Theorem parsers_agree_in_text_mode
    (rt : Runtime) (l : LLM) (streamingFunc : option StreamingFunc)
    (stdout : Reader) :
  OutputMode_ (opts l) = OutputModeText ->
  ToolEventHook_ (opts l) = None ->
  (forall payload,
     pkg.extractAssistantTexts payload
     = match extractAssistantContent payload with
       | inl err => inl err
       | inr (texts, _) => inr texts
       end)
  /\ pkg.readStream rt l stdout streamingFunc = readStream rt l stdout streamingFunc
  /\ trace (pkg.readStream_run rt l stdout streamingFunc).1
     = trace (readStream_run rt l stdout streamingFunc).1.
Proof.
  intros Hmode Hhook. split; [apply extractAssistantTexts_fst|].
  unfold pkg.readStream, readStream, pkg.readStream_run, readStream_run.
  destruct (scanLoop_agree rt l streamingFunc Hmode Hhook
              (lines (stdout (MaxBufferSize (opts l)))) initState initState)
    as [(Hb & Hg & Ht) Herr]; [done|].
  destruct (pkg.scanLoop rt streamingFunc _ initState) as [st1 e1].
  destruct (scanLoop rt l streamingFunc _ initState) as [st2 e2].
  simpl in *. subst e2.
  destruct e1 as [err|]; [|destruct (Err _)]; simpl; split; congruence.
Qed.

Lemma parsers_agree_in_text_mode_witness :
  pkg.readStream (testRuntime (decodeTwo "A" hiLine "S" systemLine) [])
    (textModeClient None) (Stdout (quietProcess ["A"; "S"; "A"])) (Some accept)
  = ("hihi", None, None).
Proof.
  destruct (parsers_agree_in_text_mode
    (testRuntime (decodeTwo "A" hiLine "S" systemLine) [])
    (textModeClient None) (Some accept) (Stdout (quietProcess ["A"; "S"; "A"]))
    eq_refl eq_refl) as (_ & Hsame & _).
  rewrite Hsame. vm_compute. reflexivity.
Defined.

(** ** Full mode and the end of parsing *)

(** X25: in full mode a tool-completed event adds one line to the output:
    the outbox mark, the tool output and a line feed, where an output of
    more than 500 bytes is cut to its first 500 bytes followed by
    ["... (truncated)"]; so a tool result adds at most 530 bytes. The
    streaming callback, when set, receives the same line once, after the
    hook. *)
Theorem full_mode_truncates_tool_output
    (rt : Runtime) (l : LLM) (event : ToolEvent)
    (streamingFunc : option StreamingFunc) (st : StreamState) :
  OutputMode_ (opts l) = OutputModeFull ->
  Type_ event = ToolEventResult ->
  let st' := handleToolEvent rt l event streamingFunc st in
  exists shown,
    let line := outbox +:+ shown +:+ strings.LF in
    builder st' = builder st +:+ line
    /\ trace st' = trace st ++ hookEffects l event
                     ++ match streamingFunc with
                        | Some _ => [CallStreamingFunc line]
                        | None => []
                        end
    /\ ((String.length (Output event) <= 500)%nat -> shown = Output event)
    /\ ((500 < String.length (Output event))%nat ->
        shown = strings.slice_to 500 (Output event) +:+ "... (truncated)")
    /\ (String.length line <= 530)%nat.
Proof.
  intros Hmode Hty st'. subst st'.
  rewrite handleToolEvent_builder, handleToolEvent_trace.
  unfold toolEffects, toolText, toolSummary. rewrite Hmode, Hty. simpl.
  set (shown := if 500 <? strings.len (Output event)
                then strings.slice_to 500 (Output event) +:+ "... (truncated)"
                else Output event).
  exists shown. cbv zeta.
  split; [reflexivity|]. split.
  { destruct streamingFunc; reflexivity. }
  subst shown. unfold strings.len in *.
  assert (HLF : String.length strings.LF = 1%nat) by reflexivity.
  assert (Hcut : String.length "... (truncated)" = 15%nat) by reflexivity.
  pose proof (Nat.le_min_l 500 (String.length (Output event))) as Hmin.
  destruct (Z.ltb_spec 500 (Z.of_nat (String.length (Output event))));
    (split; [intros; first [reflexivity | lia]|]);
    (split; [intros; first [reflexivity | lia]|]);
    rewrite !length_append, ?length_slice_to, HLF, ?Hcut;
    change (String.length "") with 0%nat; lia.
Qed.

Lemma full_mode_truncates_tool_output_witness :
  builder (handleToolEvent (testRuntime noDecode [])
             {| cliPath := "claude";
                opts := WithOutputMode OutputModeFull defaultOptions |}
             {| Type_ := ToolEventResult; ToolName := ""; ToolID := "t1";
                Input := None; Output := "ok"; Timestamp := 0 |}
             None initState)
  = outbox +:+ "ok" +:+ strings.LF.
Proof.
  destruct (full_mode_truncates_tool_output (testRuntime noDecode [])
    {| cliPath := "claude"; opts := WithOutputMode OutputModeFull defaultOptions |}
    {| Type_ := ToolEventResult; ToolName := ""; ToolID := "t1";
       Input := None; Output := "ok"; Timestamp := 0 |}
    None initState eq_refl eq_refl) as (shown & Hb & _ & Hshort & _).
  rewrite Hb, Hshort; [reflexivity | simpl; lia].
Defined.

(** X26: parsing stops at the first error: once a prefix of the stream has
    ended in an error, whatever follows is neither decoded nor handled, and
    the result is that of the prefix. *)
Theorem scanLoop_stops_at_first_error
    (rt : Runtime) (l : LLM) (streamingFunc : option StreamingFunc)
    (pre rest : list string) (st st' : StreamState) (err : error) :
  scanLoop rt l streamingFunc pre st = (st', Some err) ->
  scanLoop rt l streamingFunc (pre ++ rest) st = (st', Some err).
Proof. intros Hpre. by rewrite scanLoop_app, Hpre. Qed.

Lemma scanLoop_stops_at_first_error_witness :
  scanLoop (testRuntime (decodeTwo "A" hiLine "E" errorLine) [])
    (textModeClient None) None (["A"; "E"] ++ ["A"; "{bad"]) initState
  = (WriteString "hi" initState, Some (ErrCLIError errorLine)).
Proof.
  apply scanLoop_stops_at_first_error. vm_compute. reflexivity.
Defined.
